(** * ResumeBackend/app.py: the document text extraction endpoint

    A shallow embedding of the Flask handler [parse_document] and of its two
    helpers [extract_text_from_pdf] and [extract_text_from_docx], together
    with the part of Python, of werkzeug and of the POSIX file system that
    the handler runs on.

    Conventions of the model.
    - A Python [str] is its sequence of Unicode code points, [list N];
      [bytes] are [list byte].
    - A handler run is a computation in a state-and-exception monad over a
      [world]: the file system, the working directory and the trace of the
      calls made so far.  An exception that nothing catches leaves the
      handler as [Raise e]; Flask then answers for the handler.
    - The file system is a finite map from absolute, normalised paths to
      nodes.  Symbolic links, permissions, quotas and name-length limits
      are not modelled, and one request runs at a time.
    - PyMuPDF and python-docx are parameters: they are given the file
      system and a path and return a document or raise.  They do not write
      to the file system. *)

From stdpp Require Import gmap list strings.
From Stdlib Require Import NArith Strings.Byte.

Open Scope N_scope.

(* ===================================================================== *)
(** ** Python strings *)
(* ===================================================================== *)

Abbreviation str := (list N).
Abbreviation bytes := (list byte).

(** A literal of the source, as code points (the literals of app.py are
    all ASCII). *)
Definition py (s : string) : str :=
  map Byte.to_N (String.list_byte_of_string s).
Arguments py s%_string.

(** ASCII text as the bytes of a file. *)
Definition ascii_bytes (s : string) : bytes := String.list_byte_of_string s.
Arguments ascii_bytes s%_string.

Definition LF : N := 10.
Definition CR : N := 13.
Definition SLASH : N := 47.

(** [bool(s)] for a string. *)
Definition str_truthy (s : str) : bool :=
  match s with [] => false | _ :: _ => true end.

(** [bool(x)] for a value that is [None] or a string. *)
Definition truthy (x : option str) : bool :=
  match x with None => false | Some s => str_truthy s end.

(** [x or d] for [x] that is [None] or a string, and a string [d]. *)
Definition or_else (x : option str) (d : str) : str :=
  match x with
  | Some s => if str_truthy s then s else d
  | None => d
  end.

(** [str.lower] on one character.  Only the ASCII letters are mapped.
    Python also maps letters outside ASCII, but none of them to a string
    that ends in an ASCII character other than [k] (U+212A), so the three
    suffix tests of the handler are decided by this mapping. *)
Definition lower_char (c : N) : N :=
  if (65 <=? c) && (c <=? 90) then c + 32 else c.

Definition lower (s : str) : str := map lower_char s.

(** [s.startswith(prefix)] and [s.endswith(suffix)]. *)
Definition startswith (s prefix : str) : bool :=
  bool_decide (prefix `prefix_of` s).

Definition endswith (s suffix : str) : bool :=
  bool_decide (suffix `suffix_of` s).

(* ===================================================================== *)
(** ** Reading text: UTF-8 and universal newlines *)
(* ===================================================================== *)

Definition is_cont (b : N) : bool := (128 <=? b) && (b <=? 191).
Definition in_range (lo hi b : N) : bool := (lo <=? b) && (b <=? hi).
Definition low6 (b : N) : N := b - 128.

(** The strict UTF-8 decoder of [open(..., encoding='utf-8')]: shortest
    forms only, no surrogates, nothing above U+10FFFF.  [None] stands for
    [UnicodeDecodeError]. *)
Fixpoint utf8_decode (bs : bytes) : option str :=
  match bs with
  | [] => Some []
  | x0 :: r0 =>
    let b0 := Byte.to_N x0 in
    if b0 <? 128 then cons b0 <$> utf8_decode r0
    else
    match r0 with
    | [] => None
    | x1 :: r1 =>
      let b1 := Byte.to_N x1 in
      if in_range 194 223 b0 then
        if is_cont b1
        then cons ((b0 - 192) * 64 + low6 b1) <$> utf8_decode r1
        else None
      else
      match r1 with
      | [] => None
      | x2 :: r2 =>
        let b2 := Byte.to_N x2 in
        if in_range 224 239 b0 then
          if (if b0 =? 224 then in_range 160 191 b1
              else if b0 =? 237 then in_range 128 159 b1
              else is_cont b1) && is_cont b2
          then cons ((b0 - 224) * 4096 + low6 b1 * 64 + low6 b2)
                 <$> utf8_decode r2
          else None
        else
        match r2 with
        | [] => None
        | x3 :: r3 =>
          let b3 := Byte.to_N x3 in
          if in_range 240 244 b0 then
            if (if b0 =? 240 then in_range 144 191 b1
                else if b0 =? 244 then in_range 128 143 b1
                else is_cont b1) && is_cont b2 && is_cont b3
            then cons ((b0 - 240) * 262144 + low6 b1 * 4096
                       + low6 b2 * 64 + low6 b3)
                   <$> utf8_decode r3
            else None
          else None
        end
      end
    end
  end.

(** Text mode with the default [newline=None]: on input, [\r\n] and a lone
    [\r] become [\n]. *)
Fixpoint universal_newlines (s : str) : str :=
  match s with
  | [] => []
  | c :: r =>
    if c =? CR then
      LF :: match r with
            | d :: r' =>
              if d =? LF then universal_newlines r' else universal_newlines r
            | [] => []
            end
    else c :: universal_newlines r
  end.

(* ===================================================================== *)
(** ** Exceptions, the world, and the monad of a handler run *)
(* ===================================================================== *)

(** The exceptions that can occur, with the attributes Python gives them.
    [ForeignError] is whatever PyMuPDF or python-docx raises. *)
Inductive exn : Type :=
  | OSError (filename : str)
  | ValueError (arg : str)
  | UnicodeDecodeError (object : bytes)
  | KeyError (key : str)
  | ForeignError (info : str).

Inductive outcome (A : Type) : Type :=
  | Return (a : A)
  | Raise (e : exn).
Arguments Return {A} a.
Arguments Raise {A} e.

Inductive node : Type :=
  | Dir
  | File (data : bytes).

(** The calls with an effect on the file system or the output, in the
    order they are made.  The methods of an opened PDF document
    ([load_page], [get_text], [close]) are not recorded: a trace is silent
    about them. *)
Inductive event : Type :=
  | Call_save (dst : str)
  | Call_open_read (path : str)
  | Call_remove (path : str)
  | Call_fitz_open (path : str)
  | Call_docx_Document (path : str)
  | Call_print (text : str).

Record world : Type := World {
  files : gmap (list str) node;
  cwd : list str;
  trace : list event
}.

Definition M (A : Type) : Type := world -> outcome A * world.

Definition ret {A} (a : A) : M A := fun w => (Return a, w).

Definition raise {A} (e : exn) : M A := fun w => (Raise e, w).

Definition bind {A B} (c : M A) (k : A -> M B) : M B :=
  fun w =>
    match c w with
    | (Return a, w') => k a w'
    | (Raise e, w') => (Raise e, w')
    end.

(** [try: body except Exception as e: handler e]. *)
Definition try_except {A} (body : M A) (handler : exn -> M A) : M A :=
  fun w =>
    match body w with
    | (Return a, w') => (Return a, w')
    | (Raise e, w') => handler e w'
    end.

Definition lift {A} (o : outcome A) : M A := fun w => (o, w).

Definition get_world : M world := fun w => (Return w, w).

Definition emit (e : event) : M unit :=
  fun w => (Return tt, World (files w) (cwd w) (trace w ++ [e])).

Definition set_files (fs : gmap (list str) node) : M unit :=
  fun w => (Return tt, World fs (cwd w) (trace w)).

Declare Scope py_scope.
Delimit Scope py_scope with py.
Notation "x <- c ;; k" := (bind c (fun x => k))
  (at level 100, c at next level, right associativity) : py_scope.
Notation "c ;;; k" := (bind c (fun _ => k))
  (at level 100, right associativity) : py_scope.
Open Scope py_scope.

(* ===================================================================== *)
(** ** The file system *)
(* ===================================================================== *)

(** The components of a path string between its slashes. *)
Fixpoint split_slash_aux (s cur : str) : list str :=
  match s with
  | [] => [cur]
  | c :: r =>
    if c =? SLASH then cur :: split_slash_aux r []
    else split_slash_aux r (cur ++ [c])
  end.

Definition split_slash (s : str) : list str := split_slash_aux s [].

Definition DOT : str := py ".".
Definition DOTDOT : str := py "..".

Definition is_dir (fs : gmap (list str) node) (p : list str) : bool :=
  match p with
  | [] => true
  | _ =>
    match fs !! p with
    | Some Dir => true
    | _ => false
    end
  end.

(** Walk the components that lead to the last one, from directory [at_].
    Each name on the way must be a directory. *)
Fixpoint walk (fs : gmap (list str) node) (at_ : list str)
    (comps : list str) : option (list str) :=
  match comps with
  | [] => Some at_
  | c :: rest =>
    if bool_decide (c = []) || bool_decide (c = DOT) then walk fs at_ rest
    else if bool_decide (c = DOTDOT) then walk fs (removelast at_) rest
    else if is_dir fs (at_ ++ [c]) then walk fs (at_ ++ [c]) rest
    else None
  end.

(** What a path names: a directory reached by the walk itself (the path
    ends in a slash, [.] or [..]), or an entry of a directory. *)
Inductive target : Type :=
  | Walked_dir (p : list str)
  | Entry (p : list str).

Definition resolve (w : world) (path : str) : option target :=
  if negb (str_truthy path) then None
  else
    let start := if startswith path [SLASH] then [] else cwd w in
    let comps := split_slash path in
    match walk (files w) start (removelast comps) with
    | None => None
    | Some d =>
      let l := List.last comps [] in
      if bool_decide (l = []) || bool_decide (l = DOT) then Some (Walked_dir d)
      else if bool_decide (l = DOTDOT) then Some (Walked_dir (removelast d))
      else Some (Entry (d ++ [l]))
    end.

(** Every path-taking call refuses an embedded NUL with [ValueError]. *)
Definition check_path (path : str) : M unit :=
  if bool_decide (0 ∈ path) then raise (ValueError path) else ret tt.

(** [open(path, 'wb')], writing [data] and closing: creates or truncates
    a regular file.  The failures modelled are those of the path: a NUL, a
    missing or non-directory component, a directory as target.  A refusal
    by permissions or by a name-length limit, and a write cut short, are
    not modelled. *)
Definition write_file (path : str) (data : bytes) : M unit :=
  check_path path ;;;
  w <- get_world ;;
  match resolve w path with
  | Some (Entry p) =>
    match files w !! p with
    | Some Dir => raise (OSError path)
    | _ => set_files (<[p := File data]> (files w))
    end
  | _ => raise (OSError path)
  end.

(** [open(path, 'rb').read()]. *)
Definition read_file (path : str) : M bytes :=
  check_path path ;;;
  w <- get_world ;;
  match resolve w path with
  | Some (Entry p) =>
    match files w !! p with
    | Some (File data) => ret data
    | _ => raise (OSError path)
    end
  | _ => raise (OSError path)
  end.

(** [with open(path, 'r', encoding='utf-8') as f: f.read()]. *)
Definition read_text (path : str) : M str :=
  emit (Call_open_read path) ;;;
  data <- read_file path ;;
  match utf8_decode data with
  | Some s => ret (universal_newlines s)
  | None => raise (UnicodeDecodeError data)
  end.

(** [os.remove(path)]: unlinks a regular file.  As for [write_file], a
    refusal by the permissions of the directory is not modelled. *)
Definition os_remove (path : str) : M unit :=
  emit (Call_remove path) ;;;
  check_path path ;;;
  w <- get_world ;;
  match resolve w path with
  | Some (Entry p) =>
    match files w !! p with
    | Some (File _) => set_files (delete p (files w))
    | _ => raise (OSError path)
    end
  | _ => raise (OSError path)
  end.

(** [os.path.join(a, b)] of posixpath, for two parts. *)
Definition os_path_join (a b : str) : str :=
  let sep := [SLASH] in
  if startswith b sep then b
  else if negb (str_truthy a) || endswith a sep then a ++ b
  else a ++ sep ++ b.

(** [os.makedirs(name, exist_ok=True)]: creates the missing directories
    along [name].  A refusal by permissions is not modelled. *)
Fixpoint makedirs_walk (fs : gmap (list str) node) (at_ : list str)
    (comps : list str) : option (gmap (list str) node) :=
  match comps with
  | [] => Some fs
  | c :: rest =>
    if bool_decide (c = []) || bool_decide (c = DOT)
    then makedirs_walk fs at_ rest
    else if bool_decide (c = DOTDOT)
    then makedirs_walk fs (removelast at_) rest
    else
      match fs !! (at_ ++ [c]) with
      | Some Dir => makedirs_walk fs (at_ ++ [c]) rest
      | Some (File _) => None
      | None => makedirs_walk (<[at_ ++ [c] := Dir]> fs) (at_ ++ [c]) rest
      end
  end.

Definition os_makedirs (name : str) : M unit :=
  check_path name ;;;
  w <- get_world ;;
  if negb (str_truthy name) then raise (OSError name)
  else
    let start := if startswith name [SLASH] then [] else cwd w in
    match makedirs_walk (files w) start (split_slash name) with
    | Some fs => set_files fs
    | None => raise (OSError name)
    end.

(* ===================================================================== *)
(** ** The libraries the handler calls *)
(* ===================================================================== *)

(** PyMuPDF: a page gives its text; a document has a page count, loads a
    page by number and is closed.  Each call returns or raises. *)
Record pdf_page : Type := {
  get_text : outcome str
}.

Record pdf_document : Type := {
  page_count : nat;
  load_page : nat -> outcome pdf_page;
  close : outcome unit
}.

(** [fitz.open(path)] reads the file system: the files and the working
    directory are its first two arguments. *)
Record fitz_module : Type := {
  fitz_open : gmap (list str) node -> list str -> str -> outcome pdf_document
}.

(** python-docx: a document is its paragraphs, each with a text. *)
Record paragraph : Type := {
  text : str
}.

Record docx_document : Type := {
  paragraphs : list paragraph
}.

(** [docx.Document(path)], reading the file system as [fitz.open] does. *)
Record docx_module : Type := {
  Document : gmap (list str) node -> list str -> str -> outcome docx_document
}.

(** werkzeug's [FileStorage]: the client's filename, as sent, and the
    uploaded bytes. *)
Record FileStorage : Type := {
  filename : str;
  stream : bytes
}.

(** [FileStorage.__bool__] is [bool(self.filename)]. *)
Definition FileStorage_bool (file : FileStorage) : bool :=
  str_truthy (filename file).

(** [FileStorage.save(dst)] for a path [dst]: opens it with mode [wb] and
    copies the stream. *)
Definition FileStorage_save (file : FileStorage) (dst : str) : M unit :=
  emit (Call_save dst) ;;;
  write_file dst (stream file).

(** [request.files] is a multi-dict: the file parts of the form in the
    order sent; a key may repeat, and indexing returns its first part. *)
Record Request : Type := {
  request_files : list (str * FileStorage)
}.

Fixpoint multidict_get (d : list (str * FileStorage)) (key : str)
    : option FileStorage :=
  match d with
  | [] => None
  | (k, v) :: rest =>
    if bool_decide (k = key) then Some v else multidict_get rest key
  end.

(** [key in d]. *)
Definition multidict_contains (d : list (str * FileStorage)) (key : str)
    : bool :=
  match multidict_get d key with Some _ => true | None => false end.

(** [d[key]]. *)
Definition multidict_getitem (d : list (str * FileStorage)) (key : str)
    : M FileStorage :=
  match multidict_get d key with
  | Some v => ret v
  | None => raise (KeyError key)
  end.

(** [jsonify] of a dict literal with string keys and values. *)
Abbreviation json := (list (str * str)).
Definition jsonify (d : list (str * str)) : json := d.

Definition print (s : str) : M unit := emit (Call_print s).

(* ===================================================================== *)
(** ** app.py *)
(* ===================================================================== *)

Definition UPLOAD_FOLDER : str := py "uploadresume".

(** Module level: [os.makedirs(UPLOAD_FOLDER, exist_ok=True)]. *)
Definition startup : M unit := os_makedirs UPLOAD_FOLDER.

Definition MSG_NO_FITZ : str :=
  py "PyMuPDF library is not available for PDF parsing.".
Definition MSG_PDF : str := py "Error extracting text from PDF: ".
Definition MSG_DOCX : str := py "Error extracting text from DOCX: ".
Definition MSG_TXT : str := py "Error reading TXT file: ".
Definition MSG_NO_PART : str := py "No file part in the request".
Definition MSG_NO_SELECTED : str := py "No selected file".
Definition MSG_UNSUPPORTED : str :=
  py "Unsupported file type. Please upload a PDF, DOCX, or TXT file.".
Definition MSG_FAILED : str :=
  py "Failed to extract text from the document. The file might be corrupted or in an unsupported format.".
Definition MSG_UNEXPECTED : str := py "An unexpected error occurred.".

Section App.

(** [str(e)], which the f-strings of the source splice into a message. *)
Variable str_of_exception : exn -> str.

(** The module-level name [fitz]: the imported module, or [None] when
    the import failed. *)
Variable fitz : option fitz_module.

(** The imported module [docx]. *)
Variable docx : docx_module.

(** The loop over [range(doc.page_count)] of [extract_text_from_pdf]. *)
Fixpoint pdf_pages_loop (doc : pdf_document) (page_nums : list nat)
    (text : str) : outcome str :=
  match page_nums with
  | [] => Return text
  | page_num :: rest =>
    match load_page doc page_num with
    | Raise e => Raise e
    | Return page =>
      match get_text page with
      | Raise e => Raise e
      | Return t => pdf_pages_loop doc rest (text ++ t)
      end
    end
  end.

Definition extract_text_from_pdf (pdf_path : str)
    : M (option str * option str) :=
  match fitz with
  | None => ret (None, Some MSG_NO_FITZ)
  | Some fitz =>
    let text := [] in
    try_except
      (emit (Call_fitz_open pdf_path) ;;;
       w <- get_world ;;
       doc <- lift (fitz_open fitz (files w) (cwd w) pdf_path) ;;
       text <- lift (pdf_pages_loop doc (seq 0 (page_count doc)) text) ;;
       lift (close doc) ;;;
       ret (Some text, None))
      (fun e =>
         print (MSG_PDF ++ str_of_exception e) ;;;
         ret (None, Some (MSG_PDF ++ str_of_exception e)))
  end.

(** The loop over [doc.paragraphs] of [extract_text_from_docx]. *)
Definition docx_paragraphs_loop (ps : list paragraph) (text0 : str) : str :=
  fold_left (fun acc paragraph => acc ++ (text paragraph ++ [LF])) ps text0.

Definition extract_text_from_docx (docx_path : str)
    : M (option str * option str) :=
  let text := [] in
  try_except
    (emit (Call_docx_Document docx_path) ;;;
     w <- get_world ;;
     doc <- lift (Document docx (files w) (cwd w) docx_path) ;;
     ret (Some (docx_paragraphs_loop (paragraphs doc) text), None))
    (fun e =>
       print (MSG_DOCX ++ str_of_exception e) ;;;
       ret (None, Some (MSG_DOCX ++ str_of_exception e))).

(** The [.txt] branch of [parse_document]; [extracted_text] and
    [error_message] both start as [None]. *)
Definition extract_text_from_txt (filepath : str)
    : M (option str * option str) :=
  try_except
    (extracted_text <- read_text filepath ;;
     ret (Some extracted_text, None))
    (fun e => ret (None, Some (MSG_TXT ++ str_of_exception e))).

(** The branch on the extension: the pair
    [(extracted_text, error_message)], or [None] in the [else] branch. *)
Definition extraction_step (filename filepath : str)
    : M (option (option str * option str)) :=
  if endswith (lower filename) (py ".pdf") then
    r <- extract_text_from_pdf filepath ;; ret (Some r)
  else if endswith (lower filename) (py ".docx") then
    r <- extract_text_from_docx filepath ;; ret (Some r)
  else if endswith (lower filename) (py ".txt") then
    r <- extract_text_from_txt filepath ;; ret (Some r)
  else ret None.

(** The response: the JSON body and the status code.  On the 200 path
    [extracted_text] is truthy, hence a string. *)
Definition parse_document (request : Request) : M (json * N) :=
  if negb (multidict_contains (request_files request) (py "file")) then
    ret (jsonify [(py "error", MSG_NO_PART)], 400)
  else
    file <- multidict_getitem (request_files request) (py "file") ;;
    if bool_decide (filename file = []) then
      ret (jsonify [(py "error", MSG_NO_SELECTED)], 400)
    else if FileStorage_bool file then
      let filename := filename file in
      let filepath := os_path_join UPLOAD_FOLDER filename in
      FileStorage_save file filepath ;;;
      r <- extraction_step filename filepath ;;
      match r with
      | None =>
        os_remove filepath ;;;
        ret (jsonify [(py "error", MSG_UNSUPPORTED)], 400)
      | Some (extracted_text, error_message) =>
        os_remove filepath ;;;
        if truthy extracted_text then
          ret (jsonify [(py "parsedText", default [] extracted_text)], 200)
        else
          ret (jsonify [(py "error", or_else error_message MSG_FAILED)], 500)
      end
    else
      ret (jsonify [(py "error", MSG_UNEXPECTED)], 500).

End App.

(* ===================================================================== *)
(** ** Example deployments *)
(* ===================================================================== *)

(** A machine with [/srv/app] and [/tmp], the service started in
    [/srv/app]. *)
Definition blank_world : world :=
  World (<[ [py "tmp"] := Dir ]>
         (<[ [py "srv"; py "app"] := Dir ]>
          (<[ [py "srv"] := Dir ]> ∅)))
        [py "srv"; py "app"] [].

(** The world after the module has been imported. *)
Definition server_world : world := snd (startup blank_world).

(** A rendering of [str(e)]. *)
Definition demo_str (e : exn) : str :=
  match e with
  | OSError f => py "[Errno] " ++ f
  | ValueError _ => py "embedded null byte"
  | UnicodeDecodeError _ => py "'utf-8' codec can't decode"
  | KeyError k => k
  | ForeignError info => info
  end.

(** A python-docx that opens every file as the same document. *)
Definition docx_opening (d : docx_document) : docx_module :=
  {| Document := fun _ _ _ => Return d |}.

(** A python-docx that rejects every file. *)
Definition docx_rejecting : docx_module :=
  {| Document := fun _ _ _ => Raise (ForeignError (py "Package not found")) |}.

(** A PyMuPDF that opens every file as the same pages. *)
Definition pdf_of_pages (pages : list str) : pdf_document :=
  {| page_count := length pages;
     load_page := fun i =>
       match pages !! i with
       | Some t => Return {| get_text := Return t |}
       | None => Raise (ForeignError (py "page not in document"))
       end;
     close := Return tt |}.

Definition fitz_opening (pages : list str) : fitz_module :=
  {| fitz_open := fun _ _ _ => Return (pdf_of_pages pages) |}.

(** A request whose only part is named [file]. *)
Definition send (file : FileStorage) : Request :=
  {| request_files := [(py "file", file)] |}.

(** A request without file parts. *)
Definition no_upload : Request := {| request_files := [] |}.

(** The temporary path of an upload. *)
Definition temp_path (file : FileStorage) : str :=
  os_path_join UPLOAD_FOLDER (filename file).

(** The world once the upload has been saved. *)
Definition saved (file : FileStorage) (w : world) : world :=
  snd (FileStorage_save file (temp_path file) w).

(** Uploads used as examples. *)
Definition notes_txt : FileStorage :=
  {| filename := py "notes.txt";
     stream := ascii_bytes "hello" ++ [x0a] ++ ascii_bytes "world" |}.

Definition blank_txt : FileStorage :=
  {| filename := py "blank.txt"; stream := [] |}.

Definition windows_txt : FileStorage :=
  {| filename := py "windows.txt";
     stream := ascii_bytes "a" ++ [x0d; x0a] ++ ascii_bytes "b" |}.

Definition oldmac_txt : FileStorage :=
  {| filename := py "oldmac.txt";
     stream := ascii_bytes "a" ++ [x0d] ++ ascii_bytes "b" |}.

Definition cv_pdf : FileStorage :=
  {| filename := py "cv.PDF"; stream := ascii_bytes "%PDF-1.4" |}.

Definition cv_docx : FileStorage :=
  {| filename := py "cv.docx"; stream := ascii_bytes "PK" |}.

Definition notes_xyz : FileStorage :=
  {| filename := py "notes.xyz"; stream := ascii_bytes "notes" |}.

Definition drafts_cv_pdf : FileStorage :=
  {| filename := py "drafts/cv.pdf"; stream := ascii_bytes "%PDF-1.4" |}.

Definition drafts_notes_xyz : FileStorage :=
  {| filename := py "drafts/notes.xyz"; stream := ascii_bytes "notes" |}.

Definition unnamed : FileStorage :=
  {| filename := []; stream := ascii_bytes "notes" |}.

Definition doc_A_B : docx_document :=
  {| paragraphs := [ {| text := py "A" |}; {| text := py "B" |} ] |}.

(** The extensions with an extraction routine. *)
Definition supported (name : str) : bool :=
  endswith (lower name) (py ".pdf")
  || endswith (lower name) (py ".docx")
  || endswith (lower name) (py ".txt").

(** The answer of lines 88-97 to the result of the branch on the
    extension. *)
Definition response_of (r : option (option str * option str)) : json * N :=
  match r with
  | None => ([(py "error", MSG_UNSUPPORTED)], 400)
  | Some (extracted_text, error_message) =>
    if truthy extracted_text
    then ([(py "parsedText", default [] extracted_text)], 200)
    else ([(py "error", or_else error_message MSG_FAILED)], 500)
  end.

(** The upload directory of a world. *)
Definition upload_dir (w : world) : list str := cwd w ++ [UPLOAD_FOLDER].

(** The two shapes of the pair [(extracted_text, error_message)] after an
    extraction routine: a text and no message, or no text and a message
    that starts with [P] or [E]. *)
Definition extraction_result (r : option str * option str) : Prop :=
  (exists t, r = (Some t, None)) \/
  (exists c m, r = (None, Some (c :: m)) /\ (c = 80 \/ c = 69)).

(** The texts of the pages of a document, when every page loads and
    gives its text. *)
Definition pages_give (doc : pdf_document) (texts : list str) : Prop :=
  List.length texts = page_count doc /\
  forall i t, texts !! i = Some t ->
    exists page, load_page doc i = Return page /\ get_text page = Return t.

(** The text that the rule of each supported type assigns to an upload
    saved in world [w1], where the content is valid for the type and the
    routine succeeds: for [.pdf] the page texts in page order, one after
    the other; for [.docx] each paragraph's text followed by a newline, in
    document order; for [.txt] the content decoded as UTF-8 and read in
    text mode. *)
Inductive extracted_by_rule (fitz : option fitz_module) (docx : docx_module)
    (file : FileStorage) (w1 : world) : str -> Prop :=
  | rule_pdf (lib : fitz_module) (doc : pdf_document) (texts : list str) :
      fitz = Some lib ->
      endswith (lower (filename file)) (py ".pdf") = true ->
      fitz_open lib (files w1) (cwd w1) (temp_path file) = Return doc ->
      pages_give doc texts ->
      close doc = Return tt ->
      extracted_by_rule fitz docx file w1 (concat texts)
  | rule_docx (doc : docx_document) :
      endswith (lower (filename file)) (py ".docx") = true ->
      Document docx (files w1) (cwd w1) (temp_path file) = Return doc ->
      extracted_by_rule fitz docx file w1
        (concat (map (fun p => text p ++ [LF]) (paragraphs doc)))
  | rule_txt (s : str) :
      endswith (lower (filename file)) (py ".txt") = true ->
      utf8_decode (stream file) = Some s ->
      extracted_by_rule fitz docx file w1 (universal_newlines s).

(** Saving an upload named [name] in world [w] creates a file at an entry
    that does not lie under the upload directory. *)
Definition saved_outside_upload_dir (w : world) (name : str) (data : bytes)
    : Prop :=
  exists p w1,
    FileStorage_save {| filename := name; stream := data |}
      (os_path_join UPLOAD_FOLDER name) w = (Return tt, w1) /\
    files w !! p = None /\
    files w1 !! p = Some (File data) /\
    ~ (upload_dir w `prefix_of` p).

(** Page [i] of a document loads and gives a text. *)
Definition page_reads (doc : pdf_document) (i : nat) : Prop :=
  exists page t, load_page doc i = Return page /\ get_text page = Return t.

(** Page [i] of a document raises [e], when it is loaded or when it is
    asked for its text. *)
Definition page_raises (doc : pdf_document) (i : nat) (e : exn) : Prop :=
  load_page doc i = Raise e \/
  exists page, load_page doc i = Return page /\ get_text page = Raise e.

(** The calls that leave the file system alone. *)
Definition is_read_call (ev : event) : bool :=
  match ev with
  | Call_save _ | Call_remove _ => false
  | _ => true
  end.

(** A filename that is a single path component: not empty, without a
    slash or a NUL, and neither [.] nor [..]. *)
Definition simple_name (name : str) : bool :=
  str_truthy name
  && negb (bool_decide (SLASH ∈ name))
  && negb (bool_decide (0 ∈ name))
  && negb (bool_decide (name = DOT))
  && negb (bool_decide (name = DOTDOT)).

(** A PyMuPDF document with the given pages followed by one page that
    cannot be loaded. *)
Definition pdf_with_bad_page (pages : list str) (e : exn) : pdf_document :=
  {| page_count := S (List.length pages);
     load_page := fun i =>
       match pages !! i with
       | Some t => Return {| get_text := Return t |}
       | None => Raise e
       end;
     close := Return tt |}.

(** A PyMuPDF document with the given pages whose [close] raises. *)
Definition pdf_with_bad_close (pages : list str) (e : exn) : pdf_document :=
  {| page_count := List.length pages;
     load_page := load_page (pdf_of_pages pages);
     close := Raise e |}.

(** A PyMuPDF that opens every file as the same document. *)
Definition fitz_giving (doc : pdf_document) : fitz_module :=
  {| fitz_open := fun _ _ _ => Return doc |}.

(** A PyMuPDF that rejects every file. *)
Definition fitz_rejecting : fitz_module :=
  {| fitz_open := fun _ _ _ => Raise (ForeignError (py "cannot open file")) |}.

Definition latin1_txt : FileStorage :=
  {| filename := py "latin1.txt"; stream := ascii_bytes "caf" ++ [xe9] |}.

Definition empty_docx : docx_document := {| paragraphs := [] |}.

(** A machine where a regular file stands at [/srv/app/uploadresume]. *)
Definition blocked_world : world :=
  World (<[ [py "srv"; py "app"; py "uploadresume"] := File [] ]>
         (files blank_world))
        (cwd blank_world) [].

(** A request that sends two parts named [file]. *)
Definition send_two (first second : FileStorage) : Request :=
  {| request_files := [(py "other", second); (py "file", first);
                       (py "file", second)] |}.

Definition doc_blank_line : docx_document :=
  {| paragraphs := [ {| text := [] |} ] |}.

(** The world after the handler has run on a request. *)
Definition after (str_of_exception : exn -> str)
    (fitz : option fitz_module) (docx : docx_module)
    (request : Request) (w : world) : world :=
  snd (parse_document str_of_exception fitz docx request w).

(** Lines 75-97: what [parse_document] does once the upload is saved. *)
Definition finish_upload (str_of_exception : exn -> str)
    (fitz : option fitz_module) (docx : docx_module) (file : FileStorage)
    : M (json * N) :=
  r <- extraction_step str_of_exception fitz docx (filename file)
         (temp_path file) ;;
  os_remove (temp_path file) ;;;
  ret (response_of r).

(** The example deployment with a file [/srv/app/evil.txt], next to the
    upload directory. *)
Definition victim_world : world :=
  World (<[ [py "srv"; py "app"; py "evil.txt"] := File (ascii_bytes "old") ]>
         (files server_world))
        (cwd server_world) [].

Definition evil_txt : FileStorage :=
  {| filename := py "../evil.txt"; stream := ascii_bytes "new" |}.

(* ===================================================================== *)
(** ** Strings *)
(* ===================================================================== *)

Lemma str_truthy_true (s : str) : str_truthy s = true <-> s ≠ [].
Proof. destruct s; simpl; split; intros; congruence. Qed.

Lemma endswith_true (s suffix : str) :
  endswith s suffix = true <-> suffix `suffix_of` s.
Proof. unfold endswith. apply bool_decide_eq_true. Qed.

(** Two suffixes of one string end in the same character. *)
Lemma suffix_last_eq (s a b : str) :
  a `suffix_of` s -> b `suffix_of` s -> a ≠ [] -> b ≠ [] ->
  List.last a 0 = List.last b 0.
Proof.
  intros [ka ->] [kb Hb] Ha Hb'.
  assert (List.last (ka ++ a) 0 = List.last a 0) as <-.
  { clear Hb. induction ka as [|x ka IH]; [done|].
    simpl. destruct (ka ++ a) eqn:E; [|exact IH].
    destruct ka; destruct a; simpl in E; congruence. }
  rewrite Hb. clear Hb Ha.
  induction kb as [|x kb IH]; [done|].
  simpl. destruct (kb ++ b) eqn:E; [|exact IH].
  destruct kb; destruct b; simpl in E; congruence.
Qed.

(** The three extensions exclude one another. *)
Lemma docx_not_pdf (name : str) :
  endswith (lower name) (py ".docx") = true ->
  endswith (lower name) (py ".pdf") = false.
Proof.
  intros H. apply endswith_true in H.
  destruct (endswith (lower name) (py ".pdf")) eqn:E; [|done].
  apply endswith_true in E.
  pose proof (suffix_last_eq _ _ _ H E) as L.
  vm_compute in L. discriminate L; discriminate.
Qed.

Lemma txt_not_pdf (name : str) :
  endswith (lower name) (py ".txt") = true ->
  endswith (lower name) (py ".pdf") = false.
Proof.
  intros H. apply endswith_true in H.
  destruct (endswith (lower name) (py ".pdf")) eqn:E; [|done].
  apply endswith_true in E.
  pose proof (suffix_last_eq _ _ _ H E) as L.
  vm_compute in L. discriminate L; discriminate.
Qed.

Lemma txt_not_docx (name : str) :
  endswith (lower name) (py ".txt") = true ->
  endswith (lower name) (py ".docx") = false.
Proof.
  intros H. apply endswith_true in H.
  destruct (endswith (lower name) (py ".docx")) eqn:E; [|done].
  apply endswith_true in E.
  pose proof (suffix_last_eq _ _ _ H E) as L.
  vm_compute in L. discriminate L; discriminate.
Qed.

(** Without a carriage return, newline translation changes nothing. *)
Lemma universal_newlines_no_CR (s : str) :
  CR ∉ s -> universal_newlines s = s.
Proof.
  induction s as [|c r IH]; [done|].
  intros H. apply not_elem_of_cons in H as [Hc Hr].
  simpl. destruct (c =? CR) eqn:E.
  - apply N.eqb_eq in E. congruence.
  - f_equal. auto.
Qed.

Lemma universal_newlines_nil (s : str) :
  universal_newlines s = [] <-> s = [].
Proof.
  split; [|intros ->; done].
  destruct s as [|c r]; [done|].
  simpl. destruct (c =? CR); discriminate.
Qed.

(* ===================================================================== *)
(** ** The file system *)
(* ===================================================================== *)

(** Writing a regular file where no directory was leaves the
    directories as they are. *)
Lemma is_dir_insert_file (fs : gmap (list str) node) (p q : list str)
    (data : bytes) :
  fs !! p ≠ Some Dir ->
  is_dir (<[p := File data]> fs) q = is_dir fs q.
Proof.
  intros Hp. unfold is_dir. destruct q as [|c q]; [done|].
  destruct (decide (p = c :: q)) as [->|Hne].
  - rewrite lookup_insert_eq.
    destruct (fs !! (c :: q)) as [[|d]|]; try done.
  - by rewrite lookup_insert_ne.
Qed.

Lemma walk_ext (fs fs' : gmap (list str) node) :
  (forall q, is_dir fs' q = is_dir fs q) ->
  forall comps at_, walk fs' at_ comps = walk fs at_ comps.
Proof.
  intros H comps. induction comps as [|c rest IH]; intros at_; [done|].
  simpl. rewrite H, !IH. done.
Qed.

Lemma resolve_ext (w w' : world) (path : str) :
  (forall q, is_dir (files w') q = is_dir (files w) q) ->
  cwd w' = cwd w ->
  resolve w' path = resolve w path.
Proof.
  intros H Hc. unfold resolve. rewrite Hc.
  by rewrite (walk_ext _ _ H).
Qed.

(** What [open(path, 'wb')] followed by a write does. *)
Lemma write_file_run (path : str) (data : bytes) (w : world) :
  write_file path data w =
  if bool_decide (0 ∈ path) then (Raise (ValueError path), w)
  else
    match resolve w path with
    | Some (Entry p) =>
      match files w !! p with
      | Some Dir => (Raise (OSError path), w)
      | _ => (Return tt, World (<[p := File data]> (files w)) (cwd w) (trace w))
      end
    | _ => (Raise (OSError path), w)
    end.
Proof.
  unfold write_file, check_path, bind, get_world.
  destruct (bool_decide (0 ∈ path)); [done|]. simpl.
  destruct (resolve w path) as [[d|p]|]; try done.
  destruct (files w !! p) as [[|d]|]; done.
Qed.

Lemma os_remove_run (path : str) (w : world) :
  os_remove path w =
  let w1 := World (files w) (cwd w) (trace w ++ [Call_remove path]) in
  if bool_decide (0 ∈ path) then (Raise (ValueError path), w1)
  else
    match resolve w path with
    | Some (Entry p) =>
      match files w !! p with
      | Some (File _) =>
        (Return tt, World (delete p (files w)) (cwd w)
                          (trace w ++ [Call_remove path]))
      | _ => (Raise (OSError path), w1)
      end
    | _ => (Raise (OSError path), w1)
    end.
Proof.
  unfold os_remove, check_path, bind, get_world, emit. simpl.
  destruct (bool_decide (0 ∈ path)); [done|]. simpl.
  change (resolve (World (files w) (cwd w) (trace w ++ [Call_remove path])) path)
    with (resolve w path).
  destruct (resolve w path) as [[d|p]|]; try done.
  destruct (files w !! p) as [[|d]|]; done.
Qed.

Lemma read_text_run (path : str) (w : world) :
  read_text path w =
  let w1 := World (files w) (cwd w) (trace w ++ [Call_open_read path]) in
  if bool_decide (0 ∈ path) then (Raise (ValueError path), w1)
  else
    match resolve w path with
    | Some (Entry p) =>
      match files w !! p with
      | Some (File data) =>
        match utf8_decode data with
        | Some s => (Return (universal_newlines s), w1)
        | None => (Raise (UnicodeDecodeError data), w1)
        end
      | _ => (Raise (OSError path), w1)
      end
    | _ => (Raise (OSError path), w1)
    end.
Proof.
  unfold read_text, read_file, check_path, bind, get_world, emit. simpl.
  destruct (bool_decide (0 ∈ path)); [done|]. simpl.
  change (resolve (World (files w) (cwd w) (trace w ++ [Call_open_read path])) path)
    with (resolve w path).
  destruct (resolve w path) as [[d|p]|]; try done.
  destruct (files w !! p) as [[|d]|]; try done.
  simpl. destruct (utf8_decode d); done.
Qed.

(** A successful [save]: the path names an entry that is not a directory,
    and the entry becomes a regular file with the uploaded bytes. *)
Lemma save_returns (file : FileStorage) (dst : str) (w w1 : world) :
  FileStorage_save file dst w = (Return tt, w1) ->
  exists p,
    (0 ∉ dst) /\ resolve w dst = Some (Entry p) /\ files w !! p ≠ Some Dir /\
    w1 = World (<[p := File (stream file)]> (files w)) (cwd w)
               (trace w ++ [Call_save dst]).
Proof.
  unfold FileStorage_save, bind, emit. simpl. rewrite write_file_run.
  change (resolve (World (files w) (cwd w) (trace w ++ [Call_save dst])) dst)
    with (resolve w dst). simpl.
  destruct (bool_decide (0 ∈ dst)) eqn:E0; [discriminate|].
  apply bool_decide_eq_false in E0.
  destruct (resolve w dst) as [[d|p]|]; try discriminate.
  destruct (files w !! p) as [[|d]|] eqn:E; try discriminate;
    intros [= <-]; exists p; rewrite E; done.
Qed.

(** A failed [save] writes nothing. *)
Lemma save_raises (file : FileStorage) (dst : str) (w w1 : world) (e : exn) :
  FileStorage_save file dst w = (Raise e, w1) ->
  files w1 = files w /\ cwd w1 = cwd w /\ trace w1 = trace w ++ [Call_save dst].
Proof.
  unfold FileStorage_save, bind, emit. simpl. rewrite write_file_run.
  change (resolve (World (files w) (cwd w) (trace w ++ [Call_save dst])) dst)
    with (resolve w dst). simpl.
  destruct (bool_decide (0 ∈ dst)); [by intros [= <- <-]|].
  destruct (resolve w dst) as [[d|p]|]; try by intros [= <- <-].
  destruct (files w !! p) as [[|d]|]; try discriminate; by intros [= <- <-].
Qed.

(* ===================================================================== *)
(** ** The extraction routines *)
(* ===================================================================== *)

(** The page loop appends the page texts in page order. *)
Lemma pdf_pages_loop_concat (doc : pdf_document) (texts : list str) :
  forall (k : nat) (acc : str),
  (forall i t, texts !! i = Some t ->
     exists page, load_page doc (k + i)%nat = Return page /\
                  get_text page = Return t) ->
  pdf_pages_loop doc (seq k (List.length texts)) acc
  = Return (acc ++ concat texts).
Proof.
  induction texts as [|t texts IH]; intros k acc H.
  - simpl. by rewrite app_nil_r.
  - simpl. destruct (H 0%nat t eq_refl) as (page & Hl & Hg).
    rewrite Nat.add_0_r in Hl. rewrite Hl, Hg.
    rewrite IH.
    + by rewrite app_assoc.
    + intros i t' Hi. specialize (H (S i) t' Hi).
      by rewrite Nat.add_succ_r in H.
Qed.

(** The paragraph loop appends each paragraph's text and a newline. *)
Lemma docx_paragraphs_loop_concat (ps : list paragraph) (acc : str) :
  docx_paragraphs_loop ps acc
  = acc ++ concat (map (fun p => text p ++ [LF]) ps).
Proof.
  unfold docx_paragraphs_loop. revert acc.
  induction ps as [|p ps IH]; intros acc; simpl.
  - by rewrite app_nil_r.
  - rewrite IH. by rewrite <- app_assoc.
Qed.

Section Extraction.

Variable str_of_exception : exn -> str.
Variable fitz : option fitz_module.
Variable docx : docx_module.

(** [extract_text_from_pdf] always returns, and only reads. *)
Lemma extract_text_from_pdf_returns (path : str) (w : world) :
  exists r t,
    extract_text_from_pdf str_of_exception fitz path w
    = (Return r, World (files w) (cwd w) (trace w ++ t)) /\
    extraction_result r.
Proof.
  unfold extract_text_from_pdf. destruct fitz as [lib|].
  - unfold try_except, bind, emit, get_world, lift, print, ret. simpl.
    destruct (fitz_open lib (files w) (cwd w) path) as [doc|e].
    + destruct (pdf_pages_loop doc _ []) as [txt|e].
      * destruct (close doc) as [u|e].
        -- eexists _, _. split; [reflexivity|]. left. eauto.
        -- simpl. eexists _, [_; _]. rewrite <- app_assoc.
           split; [reflexivity|]. right. eexists _, _.
           split; [reflexivity|]. by right.
      * simpl. eexists _, [_; _]. rewrite <- app_assoc.
        split; [reflexivity|]. right. eexists _, _.
        split; [reflexivity|]. by right.
    + simpl. eexists _, [_; _]. rewrite <- app_assoc.
      split; [reflexivity|]. right. eexists _, _.
      split; [reflexivity|]. by right.
  - unfold ret. eexists _, []. rewrite app_nil_r. destruct w.
    split; [reflexivity|]. right. eexists _, _.
    split; [reflexivity|]. by left.
Qed.

(** [extract_text_from_docx] always returns, and only reads. *)
Lemma extract_text_from_docx_returns (path : str) (w : world) :
  exists r t,
    extract_text_from_docx str_of_exception docx path w
    = (Return r, World (files w) (cwd w) (trace w ++ t)) /\
    extraction_result r.
Proof.
  unfold extract_text_from_docx.
  unfold try_except, bind, emit, get_world, lift, print, ret. simpl.
  destruct (Document docx (files w) (cwd w) path) as [doc|e].
  - eexists _, _. split; [reflexivity|]. left. eauto.
  - simpl. eexists _, [_; _]. rewrite <- app_assoc.
    split; [reflexivity|]. right. eexists _, _.
    split; [reflexivity|]. by right.
Qed.

(** The [.txt] branch always returns, and only reads. *)
Lemma extract_text_from_txt_returns (path : str) (w : world) :
  exists r t,
    extract_text_from_txt str_of_exception path w
    = (Return r, World (files w) (cwd w) (trace w ++ t)) /\
    extraction_result r.
Proof.
  unfold extract_text_from_txt, try_except, bind, ret.
  rewrite read_text_run. simpl.
  assert (forall e,
    extraction_result (None, Some (MSG_TXT ++ str_of_exception e))) as Herr.
  { intros e. right. eexists _, _. split; [reflexivity|]. by right. }
  destruct (bool_decide (0 ∈ path)).
  { eexists _, _. split; [reflexivity|apply Herr]. }
  destruct (resolve w path) as [[d|p]|];
    try (eexists _, _; split; [reflexivity|apply Herr]).
  destruct (files w !! p) as [[|d]|];
    try (eexists _, _; split; [reflexivity|apply Herr]).
  destruct (utf8_decode d).
  - eexists _, _. split; [reflexivity|]. left. eauto.
  - eexists _, _. split; [reflexivity|apply Herr].
Qed.

(** The branch on the extension always returns, only reads, and gives a
    pair exactly for the supported extensions. *)
Lemma extraction_step_returns (name path : str) (w : world) :
  exists r t,
    extraction_step str_of_exception fitz docx name path w
    = (Return r, World (files w) (cwd w) (trace w ++ t)) /\
    match r with
    | Some res => supported name = true /\ extraction_result res
    | None => supported name = false /\ t = []
    end.
Proof.
  unfold extraction_step, supported.
  destruct (endswith (lower name) (py ".pdf")).
  { destruct (extract_text_from_pdf_returns path w) as (r & t & E & Hr).
    unfold bind, ret. rewrite E. exists (Some r), t.
    split; [reflexivity|]. split; [|exact Hr]. by rewrite ?orb_true_r. }
  destruct (endswith (lower name) (py ".docx")).
  { destruct (extract_text_from_docx_returns path w) as (r & t & E & Hr).
    unfold bind, ret. rewrite E. exists (Some r), t.
    split; [reflexivity|]. split; [|exact Hr]. by rewrite ?orb_true_r. }
  destruct (endswith (lower name) (py ".txt")).
  { destruct (extract_text_from_txt_returns path w) as (r & t & E & Hr).
    unfold bind, ret. rewrite E. exists (Some r), t.
    split; [reflexivity|]. split; [|exact Hr]. by rewrite ?orb_true_r. }
  exists None, []. unfold ret. rewrite app_nil_r. by destruct w.
Qed.

End Extraction.

(* ===================================================================== *)
(** ** The handler *)
(* ===================================================================== *)

Section Handler.

Variable str_of_exception : exn -> str.
Variable fitz : option fitz_module.
Variable docx : docx_module.

(** The first input check. *)
Lemma parse_document_no_part (request : Request) (w : world) :
  multidict_get (request_files request) (py "file") = None ->
  parse_document str_of_exception fitz docx request w
  = (Return ([(py "error", MSG_NO_PART)], 400), w).
Proof.
  intros H. unfold parse_document, multidict_contains. by rewrite H.
Qed.

(** The second input check. *)
Lemma parse_document_no_name (request : Request) (file : FileStorage)
    (w : world) :
  multidict_get (request_files request) (py "file") = Some file ->
  filename file = [] ->
  parse_document str_of_exception fitz docx request w
  = (Return ([(py "error", MSG_NO_SELECTED)], 400), w).
Proof.
  intros H Hn.
  unfold parse_document, multidict_contains, multidict_getitem, bind, ret.
  rewrite H. simpl. by rewrite bool_decide_eq_true_2.
Qed.

(** Past the input checks the handler is the save followed by the rest. *)
Lemma parse_document_named (request : Request) (file : FileStorage)
    (w : world) :
  multidict_get (request_files request) (py "file") = Some file ->
  filename file ≠ [] ->
  parse_document str_of_exception fitz docx request w
  = (FileStorage_save file (temp_path file) ;;;
     r <- extraction_step str_of_exception fitz docx (filename file)
            (temp_path file) ;;
     os_remove (temp_path file) ;;;
     ret (response_of r)) w.
Proof.
  intros H Hn.
  unfold parse_document, multidict_contains, multidict_getitem.
  rewrite H. simpl. unfold bind at 1, ret at 1.
  rewrite bool_decide_eq_false_2 by done.
  unfold FileStorage_bool. apply str_truthy_true in Hn. rewrite Hn.
  fold (temp_path file).
  unfold bind. destruct (FileStorage_save _ _ w) as [[u|e] w1]; [|done].
  destruct (extraction_step _ _ _ _ _ w1) as [[r|e] w2]; [|done].
  destruct r as [[t m]|]; [|done].
  unfold response_of.
  destruct (os_remove _ w2) as [[u'|e] w3]; [|done].
  by destruct (truthy t).
Qed.

(** A failed save is the handler's unhandled exception; nothing is
    written. *)
Lemma parse_document_save_raises (request : Request) (file : FileStorage)
    (w w1 : world) (e : exn) :
  multidict_get (request_files request) (py "file") = Some file ->
  filename file ≠ [] ->
  FileStorage_save file (temp_path file) w = (Raise e, w1) ->
  parse_document str_of_exception fitz docx request w = (Raise e, w1).
Proof.
  intros H Hn Hs. rewrite (parse_document_named _ _ _ H Hn).
  unfold bind. by rewrite Hs.
Qed.

(** After a successful save the handler returns the answer to the
    extraction result, and the temporary entry is gone. *)
Lemma parse_document_saved (request : Request) (file : FileStorage)
    (w w1 : world) :
  multidict_get (request_files request) (py "file") = Some file ->
  filename file ≠ [] ->
  FileStorage_save file (temp_path file) w = (Return tt, w1) ->
  exists p r t,
    resolve w (temp_path file) = Some (Entry p) /\
    files w1 !! p = Some (File (stream file)) /\
    extraction_step str_of_exception fitz docx (filename file)
      (temp_path file) w1
    = (Return r, World (files w1) (cwd w1) (trace w1 ++ t)) /\
    match r with
    | Some res => supported (filename file) = true /\ extraction_result res
    | None => supported (filename file) = false /\ t = []
    end /\
    parse_document str_of_exception fitz docx request w
    = (Return (response_of r),
       World (delete p (files w)) (cwd w)
             (trace w ++ [Call_save (temp_path file)] ++ t
                      ++ [Call_remove (temp_path file)])).
Proof.
  intros H Hn Hs. rewrite (parse_document_named _ _ _ H Hn).
  destruct (save_returns _ _ _ _ Hs) as (p & H0 & Hp & Hnd & ->).
  destruct (extraction_step_returns str_of_exception fitz docx
              (filename file) (temp_path file)
              (World (<[p := File (stream file)]> (files w)) (cwd w)
                     (trace w ++ [Call_save (temp_path file)])))
    as (r & t & E & Hr).
  exists p, r, t. simpl in E |- *.
  split; [done|]. split; [by rewrite lookup_insert_eq|]. split; [done|].
  split; [done|].
  unfold bind. rewrite Hs, E, os_remove_run. simpl.
  rewrite bool_decide_eq_false_2 by done.
  rewrite (resolve_ext w).
  2: { intros q. simpl. by rewrite is_dir_insert_file. }
  2: done.
  rewrite Hp. simpl. rewrite lookup_insert_eq.
  unfold ret. rewrite delete_insert_eq, <- !app_assoc. done.
Qed.

End Handler.

Section Routines.

Variable str_of_exception : exn -> str.
Variable fitz : option fitz_module.
Variable docx : docx_module.

(** Without PyMuPDF the [.pdf] branch makes no call. *)
Lemma extraction_step_pdf_unavailable (name path : str) (w : world) :
  fitz = None ->
  endswith (lower name) (py ".pdf") = true ->
  extraction_step str_of_exception fitz docx name path w
  = (Return (Some (None, Some MSG_NO_FITZ)), w).
Proof.
  intros Hfz Hp. unfold extraction_step, extract_text_from_pdf.
  by rewrite Hp, Hfz.
Qed.

Lemma extraction_step_pdf_ok (name path : str) (w : world)
    (lib : fitz_module) (doc : pdf_document) (texts : list str) :
  fitz = Some lib ->
  endswith (lower name) (py ".pdf") = true ->
  fitz_open lib (files w) (cwd w) path = Return doc ->
  pages_give doc texts ->
  close doc = Return tt ->
  fst (extraction_step str_of_exception fitz docx name path w)
  = Return (Some (Some (concat texts), None)).
Proof.
  intros Hfz Hp Ho [Hlen Hpages] Hc.
  unfold extraction_step, extract_text_from_pdf. rewrite Hp, Hfz.
  unfold try_except, bind, emit, get_world, lift, ret. simpl.
  rewrite Ho, <- Hlen, pdf_pages_loop_concat by exact Hpages.
  by rewrite Hc.
Qed.

Lemma extraction_step_docx_ok (name path : str) (w : world)
    (doc : docx_document) :
  endswith (lower name) (py ".docx") = true ->
  Document docx (files w) (cwd w) path = Return doc ->
  fst (extraction_step str_of_exception fitz docx name path w)
  = Return (Some (Some (concat (map (fun p => text p ++ [LF])
                                    (paragraphs doc))), None)).
Proof.
  intros Hd Ho. unfold extraction_step, extract_text_from_docx.
  rewrite (docx_not_pdf _ Hd), Hd.
  unfold try_except, bind, emit, get_world, lift, ret. simpl.
  rewrite Ho. simpl. by rewrite docx_paragraphs_loop_concat.
Qed.

Lemma extraction_step_txt_ok (name path : str) (w : world)
    (p : list str) (data : bytes) (s : str) :
  endswith (lower name) (py ".txt") = true ->
  0 ∉ path ->
  resolve w path = Some (Entry p) ->
  files w !! p = Some (File data) ->
  utf8_decode data = Some s ->
  fst (extraction_step str_of_exception fitz docx name path w)
  = Return (Some (Some (universal_newlines s), None)).
Proof.
  intros Ht H0 Hp Hf Hu. unfold extraction_step, extract_text_from_txt.
  rewrite (txt_not_pdf _ Ht), (txt_not_docx _ Ht), Ht.
  unfold try_except, bind, ret. rewrite read_text_run. simpl.
  rewrite bool_decide_eq_false_2 by done.
  by rewrite Hp, Hf, Hu.
Qed.

(** The file just saved is where its path leads. *)
Lemma saved_file_readable (file : FileStorage) (dst : str) (w w1 : world) :
  FileStorage_save file dst w = (Return tt, w1) ->
  (0 ∉ dst) /\
  exists p, resolve w1 dst = Some (Entry p) /\
            files w1 !! p = Some (File (stream file)).
Proof.
  intros Hs. destruct (save_returns _ _ _ _ Hs) as (p & H0 & Hp & Hnd & ->).
  split; [done|]. exists p. simpl. rewrite lookup_insert_eq.
  split; [|done]. rewrite <- Hp. apply resolve_ext; [|done].
  intros q. simpl. by apply is_dir_insert_file.
Qed.

(** The response to a saved upload is the answer to its extraction. *)
Lemma response_when_extracted (request : Request) (file : FileStorage)
    (w w1 : world) (r : option (option str * option str)) :
  multidict_get (request_files request) (py "file") = Some file ->
  filename file ≠ [] ->
  FileStorage_save file (temp_path file) w = (Return tt, w1) ->
  fst (extraction_step str_of_exception fitz docx (filename file)
         (temp_path file) w1) = Return r ->
  exists w',
    parse_document str_of_exception fitz docx request w
    = (Return (response_of r), w').
Proof.
  intros Hf Hn Hs Hr.
  destruct (parse_document_saved str_of_exception fitz docx _ _ _ _ Hf Hn Hs)
    as (p & r' & t & _ & _ & E & _ & Hrun).
  rewrite E in Hr. injection Hr as <-. eauto.
Qed.

(** An unsupported extension: the branch makes no call at all. *)
Lemma extraction_step_unsupported (name path : str) (w : world) :
  supported name = false ->
  extraction_step str_of_exception fitz docx name path w = (Return None, w).
Proof.
  unfold supported, extraction_step. intros H.
  apply orb_false_iff in H as [H Ht]. apply orb_false_iff in H as [Hp Hd].
  by rewrite Hp, Hd, Ht.
Qed.

(** Past the input checks the handler is the save followed by the rest
    of the handler. *)
Lemma parse_document_finish (request : Request) (file : FileStorage)
    (w : world) :
  multidict_get (request_files request) (py "file") = Some file ->
  filename file ≠ [] ->
  parse_document str_of_exception fitz docx request w
  = (FileStorage_save file (temp_path file) ;;;
     finish_upload str_of_exception fitz docx file) w.
Proof.
  intros Hf Hn. by rewrite (parse_document_named _ _ _ _ _ _ Hf Hn).
Qed.

End Routines.

(* ===================================================================== *)
(** ** Properties of the endpoint *)
(* ===================================================================== *)

Lemma supported_nonempty (name : str) : supported name = true -> name ≠ [].
Proof. intros H ->. vm_compute in H. discriminate. Qed.

Lemma endswith_lower_nonempty (name suffix : str) :
  endswith (lower name) suffix = true -> suffix ≠ [] -> name ≠ [].
Proof.
  intros H Hs ->. apply endswith_true in H. destruct H as [k H].
  simpl in H. symmetry in H. by apply app_nil in H as [_ ?].
Qed.

Section Endpoint.

Variable str_of_exception : exn -> str.
Variable fitz : option fitz_module.
Variable docx : docx_module.

(** C1: a request that reaches the extraction step (a part named [file]
    with a non-empty filename, saved, with a supported extension) gets the
    pair [(extracted_text, error_message)] from its extraction routine and
    is answered 200 with [{parsedText: text}] when the text is a non-empty
    string, and otherwise 500 with [{error: message}], the message being
    the captured one or, when none was captured, the generic one. *)
Theorem response_after_extraction (request : Request) (file : FileStorage)
    (w w1 : world) :
  multidict_get (request_files request) (py "file") = Some file ->
  filename file ≠ [] ->
  FileStorage_save file (temp_path file) w = (Return tt, w1) ->
  supported (filename file) = true ->
  exists extracted_text error_message w2 w3,
    extraction_step str_of_exception fitz docx (filename file)
      (temp_path file) w1
    = (Return (Some (extracted_text, error_message)), w2) /\
    parse_document str_of_exception fitz docx request w
    = (Return
         match extracted_text with
         | Some (c :: t) => ([(py "parsedText", c :: t)], 200)
         | _ =>
           ([(py "error",
              match error_message with
              | Some message => message
              | None => MSG_FAILED
              end)], 500)
         end,
       w3).
Proof.
  intros Hf Hn Hs Hsup.
  destruct (parse_document_saved str_of_exception fitz docx _ _ _ _ Hf Hn Hs)
    as (p & r & t & _ & _ & E & Hr & Hrun).
  destruct r as [[extracted_text error_message]|].
  - exists extracted_text, error_message. eexists _, _.
    split; [exact E|]. rewrite Hrun. f_equal. f_equal.
    destruct Hr as [_ [(txt & [= -> ->])|(c & m & [= -> ->] & _)]].
    + by destruct txt.
    + done.
  - destruct Hr as [Hr _]. congruence.
Qed.

(** C2: for a request with a part named [file] and a non-empty filename,
    whenever the handler returns a response the entry written for the
    upload is absent from the file system, whatever the extension and the
    outcome of the extraction; and the handler does return a response
    whenever the upload was saved. *)
Theorem temp_file_removed (request : Request) (file : FileStorage)
    (w : world) :
  multidict_get (request_files request) (py "file") = Some file ->
  filename file ≠ [] ->
  (forall response w',
     parse_document str_of_exception fitz docx request w
     = (Return response, w') ->
     exists p w1,
       FileStorage_save file (temp_path file) w = (Return tt, w1) /\
       resolve w (temp_path file) = Some (Entry p) /\
       files w1 !! p = Some (File (stream file)) /\
       files w' !! p = None) /\
  (forall w1,
     FileStorage_save file (temp_path file) w = (Return tt, w1) ->
     exists response w',
       parse_document str_of_exception fitz docx request w
       = (Return response, w')).
Proof.
  intros Hf Hn. split.
  - intros response w' Hrun.
    destruct (FileStorage_save file (temp_path file) w) as [[[]|e] w1] eqn:Hs.
    + destruct (parse_document_saved str_of_exception fitz docx _ _ _ _
                  Hf Hn Hs) as (p & r & t & Hp & Hw & _ & _ & Hrun').
      rewrite Hrun' in Hrun. injection Hrun as _ <-.
      exists p, w1. simpl. by rewrite lookup_delete_eq.
    + rewrite (parse_document_save_raises str_of_exception fitz docx
                 _ _ _ _ _ Hf Hn Hs) in Hrun.
      discriminate.
  - intros w1 Hs.
    destruct (parse_document_saved str_of_exception fitz docx _ _ _ _
                Hf Hn Hs) as (p & r & t & _ & _ & _ & _ & Hrun).
    eauto.
Qed.

(** C8: the guard [if file] holds for every file part with a non-empty
    filename, and no request is answered 500 with
    [{error: An unexpected error occurred.}]. *)
Theorem unexpected_error_unreachable :
  (forall file : FileStorage,
     filename file ≠ [] -> FileStorage_bool file = true) /\
  (forall (request : Request) (w : world),
     fst (parse_document str_of_exception fitz docx request w)
     ≠ Return ([(py "error", MSG_UNEXPECTED)], 500)).
Proof.
  split.
  - intros file Hn. unfold FileStorage_bool. by apply str_truthy_true.
  - intros request w.
    destruct (multidict_get (request_files request) (py "file"))
      as [file|] eqn:Hf.
    2: { rewrite parse_document_no_part by done. simpl. discriminate. }
    destruct (decide (filename file = [])) as [Hn|Hn].
    { rewrite (parse_document_no_name _ _ _ _ file) by done.
      simpl. discriminate. }
    destruct (FileStorage_save file (temp_path file) w) as [[[]|e] w1] eqn:Hs.
    + destruct (parse_document_saved str_of_exception fitz docx _ _ _ _
                  Hf Hn Hs) as (p & r & t & _ & _ & _ & Hr & ->).
      simpl. destruct r as [[extracted_text error_message]|];
        [|simpl; discriminate].
      destruct Hr as [_ [(txt & [= -> ->])|(c & m & [= -> ->] & Hc)]].
      * simpl. destruct txt; simpl; [|discriminate].
        vm_compute. discriminate.
      * simpl. intros [= E]. revert E. vm_compute.
        destruct Hc as [-> | ->]; discriminate.
    + rewrite (parse_document_save_raises str_of_exception fitz docx
                 _ _ _ _ _ Hf Hn Hs).
      simpl. discriminate.
Qed.

(** C9: a request without a part named [file] is answered 400 with
    [No file part in the request], a request whose part has an empty
    filename is answered 400 with [No selected file], and in both cases
    the world after the handler is the world before it: no call was made,
    [save] included, and no file was written. *)
Theorem rejected_input_changes_nothing (request : Request) (w : world) :
  (multidict_get (request_files request) (py "file") = None ->
   parse_document str_of_exception fitz docx request w
   = (Return ([(py "error", MSG_NO_PART)], 400), w)) /\
  (forall file,
     multidict_get (request_files request) (py "file") = Some file ->
     filename file = [] ->
     parse_document str_of_exception fitz docx request w
     = (Return ([(py "error", MSG_NO_SELECTED)], 400), w)).
Proof.
  split.
  - intros Hf. by apply parse_document_no_part.
  - intros file Hf Hn. by apply (parse_document_no_name _ _ _ _ file).
Qed.

(** C3, amended: with [fitz] bound to [None], every upload whose filename
    ends in [.pdf], whatever the case of its letters, and whose temporary
    file was saved is answered 500 with the message that the PyMuPDF
    library is not available; the handler returns and raises nothing. *)
Theorem pdf_unavailable_answered (request : Request) (file : FileStorage)
    (w w1 : world) :
  fitz = None ->
  multidict_get (request_files request) (py "file") = Some file ->
  endswith (lower (filename file)) (py ".pdf") = true ->
  FileStorage_save file (temp_path file) w = (Return tt, w1) ->
  exists w',
    parse_document str_of_exception fitz docx request w
    = (Return ([(py "error", MSG_NO_FITZ)], 500), w').
Proof.
  intros Hfz Hf Hp Hs.
  assert (filename file ≠ []) as Hn
    by (by apply (endswith_lower_nonempty _ _ Hp)).
  apply (response_when_extracted str_of_exception fitz docx _ _ _ _
           (Some (None, Some MSG_NO_FITZ)) Hf Hn Hs).
  by rewrite extraction_step_pdf_unavailable.
Qed.

(** C4, amended: for every saved upload of a supported type whose content
    is valid for the type and whose extraction routine succeeds with a
    non-empty text, the answer is 200 and [parsedText] is that text: the
    page texts in page order for [.pdf], each paragraph's text followed by
    a newline for [.docx], the UTF-8 content read in text mode for
    [.txt]. *)
Theorem supported_upload_parsed (request : Request) (file : FileStorage)
    (w w1 : world) (extracted : str) :
  multidict_get (request_files request) (py "file") = Some file ->
  FileStorage_save file (temp_path file) w = (Return tt, w1) ->
  extracted_by_rule fitz docx file w1 extracted ->
  extracted ≠ [] ->
  exists w',
    parse_document str_of_exception fitz docx request w
    = (Return ([(py "parsedText", extracted)], 200), w').
Proof.
  intros Hf Hs Hrule Hne.
  assert (response_of (Some (Some extracted, None))
          = ([(py "parsedText", extracted)], 200)) as <-.
  { unfold response_of. simpl. apply str_truthy_true in Hne.
    by rewrite Hne. }
  destruct Hrule as [lib doc texts Hfz Hp Ho Hg Hc | doc Hd Ho | s Ht Hu].
  - apply (response_when_extracted str_of_exception fitz docx _ _ _ _ _
             Hf (endswith_lower_nonempty _ _ Hp ltac:(done)) Hs).
    by apply (extraction_step_pdf_ok _ _ _ _ _ _ lib doc).
  - apply (response_when_extracted str_of_exception fitz docx _ _ _ _ _
             Hf (endswith_lower_nonempty _ _ Hd ltac:(done)) Hs).
    by apply extraction_step_docx_ok.
  - apply (response_when_extracted str_of_exception fitz docx _ _ _ _ _
             Hf (endswith_lower_nonempty _ _ Ht ltac:(done)) Hs).
    destruct (saved_file_readable _ _ _ _ Hs) as (H0 & p & Hp & Hfile).
    by apply (extraction_step_txt_ok _ _ _ _ _ _ p (stream file)).
Qed.

(** C5, amended: for every upload whose filename is non-empty and ends in
    none of [.pdf], [.docx], [.txt], whatever the case of its letters,
    whose temporary file was saved and whose removal by [os.remove] then
    succeeded, the handler answers 400 with the unsupported-file-type
    message; the calls of the run are the save and that one removal, with
    no extraction call and no second removal, and the temporary entry is
    gone. *)
Theorem unsupported_upload_rejected (request : Request) (file : FileStorage)
    (w w1 w2 : world) :
  multidict_get (request_files request) (py "file") = Some file ->
  filename file ≠ [] ->
  supported (filename file) = false ->
  FileStorage_save file (temp_path file) w = (Return tt, w1) ->
  os_remove (temp_path file) w1 = (Return tt, w2) ->
  parse_document str_of_exception fitz docx request w
  = (Return ([(py "error", MSG_UNSUPPORTED)], 400), w2) /\
  trace w2 = trace w ++ [Call_save (temp_path file);
                         Call_remove (temp_path file)] /\
  exists p,
    resolve w (temp_path file) = Some (Entry p) /\
    files w1 !! p = Some (File (stream file)) /\
    files w2 !! p = None.
Proof.
  intros Hf Hn Hsup Hs Hrm. split.
  - rewrite (parse_document_finish _ _ _ _ _ _ Hf Hn).
    unfold finish_upload, bind.
    by rewrite Hs, (extraction_step_unsupported _ _ _ _ _ _ Hsup), Hrm.
  - destruct (save_returns _ _ _ _ Hs) as (p & H0 & Hp & Hnd & ->).
    rewrite os_remove_run in Hrm. simpl in Hrm.
    rewrite bool_decide_eq_false_2 in Hrm by done.
    rewrite (resolve_ext w) in Hrm.
    2: { intros q. simpl. by rewrite is_dir_insert_file. }
    2: done.
    rewrite Hp in Hrm. simpl in Hrm. rewrite lookup_insert_eq in Hrm.
    injection Hrm as <-. simpl. split; [by rewrite <- app_assoc|].
    exists p. split; [done|]. split; [by rewrite lookup_insert_eq|].
    by rewrite lookup_delete_eq.
Qed.

(** C6: for every [.docx] upload that python-docx opens, the text
    extracted by [extract_text_from_docx] is the concatenation, in
    document order, of each paragraph's text followed by a newline; and
    when the paragraphs are [A] and [B] the answer is 200 with
    [parsedText] equal to [A], newline, [B], newline. *)
Theorem docx_paragraphs_joined (request : Request) (file : FileStorage)
    (w w1 : world) (doc : docx_document) :
  multidict_get (request_files request) (py "file") = Some file ->
  endswith (lower (filename file)) (py ".docx") = true ->
  FileStorage_save file (temp_path file) w = (Return tt, w1) ->
  Document docx (files w1) (cwd w1) (temp_path file) = Return doc ->
  fst (extract_text_from_docx str_of_exception docx (temp_path file) w1)
  = Return (Some (concat (map (fun p => text p ++ [LF]) (paragraphs doc))),
            None) /\
  (map text (paragraphs doc) = [py "A"; py "B"] ->
   exists w',
     parse_document str_of_exception fitz docx request w
     = (Return ([(py "parsedText", py "A" ++ [LF] ++ py "B" ++ [LF])], 200),
        w')).
Proof.
  intros Hf Hd Hs Ho. split.
  - unfold extract_text_from_docx, try_except, bind, emit, get_world,
      lift, ret. simpl.
    rewrite Ho. simpl. by rewrite docx_paragraphs_loop_concat.
  - intros Hab.
    assert (filename file ≠ []) as Hn
      by (by apply (endswith_lower_nonempty _ _ Hd)).
    assert (concat (map (fun p => text p ++ [LF]) (paragraphs doc))
            = py "A" ++ [LF] ++ py "B" ++ [LF]) as Hcat.
    { destruct (paragraphs doc) as [|a [|b [|c ps]]]; try discriminate.
      injection Hab as Ha Hb. simpl. rewrite Ha, Hb. done. }
    pose proof (extraction_step_docx_ok str_of_exception fitz docx
                  _ _ _ _ Hd Ho) as E.
    rewrite Hcat in E.
    exact (response_when_extracted str_of_exception fitz docx _ _ _ _ _
             Hf Hn Hs E).
Qed.

(** C7, amended: for every saved [.txt] upload whose content decodes as
    UTF-8 to a non-empty text, the answer is 200 and [parsedText] is the
    decoded content with every [\r\n] and every other [\r] replaced by
    [\n]; it is the decoded content itself when that has no carriage
    return. *)
Theorem txt_read_in_text_mode (request : Request) (file : FileStorage)
    (w w1 : world) (s : str) :
  multidict_get (request_files request) (py "file") = Some file ->
  endswith (lower (filename file)) (py ".txt") = true ->
  FileStorage_save file (temp_path file) w = (Return tt, w1) ->
  utf8_decode (stream file) = Some s ->
  s ≠ [] ->
  (exists w',
     parse_document str_of_exception fitz docx request w
     = (Return ([(py "parsedText", universal_newlines s)], 200), w')) /\
  (CR ∉ s -> universal_newlines s = s).
Proof.
  intros Hf Ht Hs Hu Hne. split; [|apply universal_newlines_no_CR].
  assert (filename file ≠ []) as Hn
    by (by apply (endswith_lower_nonempty _ _ Ht)).
  destruct (saved_file_readable _ _ _ _ Hs) as (H0 & p & Hp & Hfile).
  pose proof (extraction_step_txt_ok str_of_exception fitz docx
                _ _ _ _ _ _ Ht H0 Hp Hfile Hu) as E.
  destruct (response_when_extracted str_of_exception fitz docx _ _ _ _ _
              Hf Hn Hs E) as (w' & Hrun).
  exists w'. rewrite Hrun. unfold response_of. simpl.
  assert (str_truthy (universal_newlines s) = true) as ->; [|done].
  apply str_truthy_true. by rewrite universal_newlines_nil.
Qed.

(** C10: the path handed to [save] is
    [os.path.join('uploadresume', filename)] on the filename as the client
    sent it; when the save succeeds the upload's bytes stand at the entry
    that path leads to, and the handler goes on from that world; for the
    filenames [/tmp/evil.txt] and [../evil.txt], both with a supported
    extension, that entry is outside the upload directory; and a request
    naming [../evil.txt] is answered with the uploaded text and leaves the
    file of that name beside the upload directory replaced and then
    removed. *)
Theorem upload_path_unsanitized :
  (forall (request : Request) (file : FileStorage) (w : world),
     multidict_get (request_files request) (py "file") = Some file ->
     filename file ≠ [] ->
     exists t,
       trace (snd (parse_document str_of_exception fitz docx request w))
       = trace w
         ++ Call_save (os_path_join UPLOAD_FOLDER (filename file)) :: t) /\
  (forall (request : Request) (file : FileStorage) (w w1 : world),
     multidict_get (request_files request) (py "file") = Some file ->
     filename file ≠ [] ->
     FileStorage_save file (os_path_join UPLOAD_FOLDER (filename file)) w
     = (Return tt, w1) ->
     exists p,
       resolve w (os_path_join UPLOAD_FOLDER (filename file))
       = Some (Entry p) /\
       files w1 !! p = Some (File (stream file)) /\
       parse_document str_of_exception fitz docx request w
       = finish_upload str_of_exception fitz docx file w1) /\
  (forall data : bytes,
     supported (py "/tmp/evil.txt") = true /\
     saved_outside_upload_dir server_world (py "/tmp/evil.txt") data /\
     supported (py "../evil.txt") = true /\
     saved_outside_upload_dir server_world (py "../evil.txt") data) /\
  (let p := [py "srv"; py "app"; py "evil.txt"] in
   let run := parse_document str_of_exception fitz docx (send evil_txt)
                victim_world in
   files victim_world !! p = Some (File (ascii_bytes "old")) /\
   ~ (upload_dir victim_world `prefix_of` p) /\
   fst run = Return ([(py "parsedText", py "new")], 200) /\
   files (snd run) !! p = None).
Proof.
  split; [|split; [|split]].
  - intros request file w Hf Hn.
    destruct (FileStorage_save file (temp_path file) w) as [[[]|e] w1] eqn:Hs.
    + destruct (parse_document_saved str_of_exception fitz docx _ _ _ _
                  Hf Hn Hs) as (p & r & t & _ & _ & _ & _ & ->).
      simpl. eauto.
    + rewrite (parse_document_save_raises str_of_exception fitz docx
                 _ _ _ _ _ Hf Hn Hs). simpl.
      destruct (save_raises _ _ _ _ _ Hs) as (_ & _ & ->). eauto.
  - intros request file w w1 Hf Hn Hs. fold (temp_path file) in Hs |- *.
    destruct (save_returns _ _ _ _ Hs) as (p & _ & Hp & _ & Hw1).
    exists p. split; [done|].
    split; [rewrite Hw1; simpl; by rewrite lookup_insert_eq|].
    rewrite (parse_document_finish _ _ _ _ _ _ Hf Hn).
    unfold bind at 1. by rewrite Hs.
  - intros data. split; [by vm_compute|]. split.
    { exists [py "tmp"; py "evil.txt"]. eexists.
      split; [vm_compute; reflexivity|].
      split; [by vm_compute|]. split; [by vm_compute|].
      intros [k Hk]. vm_compute in Hk. discriminate. }
    split; [by vm_compute|].
    exists [py "srv"; py "app"; py "evil.txt"]. eexists.
    split; [vm_compute; reflexivity|].
    split; [by vm_compute|]. split; [by vm_compute|].
    intros [k Hk]. vm_compute in Hk. discriminate.
  - split; [by vm_compute|]. split.
    { intros [k Hk]. vm_compute in Hk. discriminate. }
    split; vm_compute; reflexivity.
Qed.

End Endpoint.

(* ===================================================================== *)
(** ** The properties on the example deployment *)
(* ===================================================================== *)

Lemma pdf_of_pages_gives (pages : list str) :
  pages_give (pdf_of_pages pages) pages.
Proof.
  split; [done|]. intros i t Hi. simpl. rewrite Hi. eauto.
Qed.

Lemma response_after_extraction_witness :
  multidict_get (request_files (send notes_txt)) (py "file") = Some notes_txt
  /\ filename notes_txt ≠ []
  /\ FileStorage_save notes_txt (temp_path notes_txt) server_world
     = (Return tt, saved notes_txt server_world)
  /\ supported (filename notes_txt) = true
  /\ exists extracted_text error_message w2 w3,
       extraction_step demo_str None docx_rejecting (filename notes_txt)
         (temp_path notes_txt) (saved notes_txt server_world)
       = (Return (Some (extracted_text, error_message)), w2) /\
       parse_document demo_str None docx_rejecting (send notes_txt)
         server_world
       = (Return
            match extracted_text with
            | Some (c :: t) => ([(py "parsedText", c :: t)], 200)
            | _ =>
              ([(py "error",
                 match error_message with
                 | Some message => message
                 | None => MSG_FAILED
                 end)], 500)
            end,
          w3).
Proof.
  assert (filename notes_txt ≠ []) as Hn by discriminate.
  assert (FileStorage_save notes_txt (temp_path notes_txt) server_world
          = (Return tt, saved notes_txt server_world)) as Hs
    by (vm_compute; reflexivity).
  assert (supported (filename notes_txt) = true) as Hsup
    by (vm_compute; reflexivity).
  split; [reflexivity|]. split; [exact Hn|]. split; [exact Hs|].
  split; [exact Hsup|].
  exact (response_after_extraction demo_str None docx_rejecting
           (send notes_txt) notes_txt server_world
           (saved notes_txt server_world) eq_refl Hn Hs Hsup).
Defined.

Lemma temp_file_removed_witness :
  multidict_get (request_files (send notes_xyz)) (py "file") = Some notes_xyz
  /\ filename notes_xyz ≠ []
  /\ (forall response w',
        parse_document demo_str None docx_rejecting (send notes_xyz)
          server_world = (Return response, w') ->
        exists p w1,
          FileStorage_save notes_xyz (temp_path notes_xyz) server_world
          = (Return tt, w1) /\
          resolve server_world (temp_path notes_xyz) = Some (Entry p) /\
          files w1 !! p = Some (File (stream notes_xyz)) /\
          files w' !! p = None)
  /\ (forall w1,
        FileStorage_save notes_xyz (temp_path notes_xyz) server_world
        = (Return tt, w1) ->
        exists response w',
          parse_document demo_str None docx_rejecting (send notes_xyz)
            server_world = (Return response, w')).
Proof.
  assert (filename notes_xyz ≠ []) as Hn by discriminate.
  split; [reflexivity|]. split; [exact Hn|].
  exact (temp_file_removed demo_str None docx_rejecting (send notes_xyz)
           notes_xyz server_world eq_refl Hn).
Defined.

Lemma unexpected_error_unreachable_witness :
  filename notes_txt ≠ []
  /\ FileStorage_bool notes_txt = true
  /\ fst (parse_document demo_str None docx_rejecting (send notes_txt)
            server_world)
     ≠ Return ([(py "error", MSG_UNEXPECTED)], 500).
Proof.
  assert (filename notes_txt ≠ []) as Hn by discriminate.
  split; [exact Hn|]. split.
  - exact (proj1 (unexpected_error_unreachable demo_str None docx_rejecting)
             notes_txt Hn).
  - exact (proj2 (unexpected_error_unreachable demo_str None docx_rejecting)
             (send notes_txt) server_world).
Defined.

Lemma rejected_input_changes_nothing_witness :
  multidict_get (request_files no_upload) (py "file") = None
  /\ parse_document demo_str None docx_rejecting no_upload server_world
     = (Return ([(py "error", MSG_NO_PART)], 400), server_world)
  /\ multidict_get (request_files (send unnamed)) (py "file") = Some unnamed
  /\ filename unnamed = []
  /\ parse_document demo_str None docx_rejecting (send unnamed) server_world
     = (Return ([(py "error", MSG_NO_SELECTED)], 400), server_world).
Proof.
  split; [reflexivity|]. split.
  - exact (proj1 (rejected_input_changes_nothing demo_str None docx_rejecting
                    no_upload server_world) eq_refl).
  - split; [reflexivity|]. split; [reflexivity|].
    exact (proj2 (rejected_input_changes_nothing demo_str None docx_rejecting
                    (send unnamed) server_world) unnamed eq_refl eq_refl).
Defined.

Lemma pdf_unavailable_answered_witness :
  multidict_get (request_files (send cv_pdf)) (py "file") = Some cv_pdf
  /\ endswith (lower (filename cv_pdf)) (py ".pdf") = true
  /\ FileStorage_save cv_pdf (temp_path cv_pdf) server_world
     = (Return tt, saved cv_pdf server_world)
  /\ exists w',
       parse_document demo_str None docx_rejecting (send cv_pdf) server_world
       = (Return ([(py "error", MSG_NO_FITZ)], 500), w').
Proof.
  assert (endswith (lower (filename cv_pdf)) (py ".pdf") = true) as Hp
    by (vm_compute; reflexivity).
  assert (FileStorage_save cv_pdf (temp_path cv_pdf) server_world
          = (Return tt, saved cv_pdf server_world)) as Hs
    by (vm_compute; reflexivity).
  split; [reflexivity|]. split; [exact Hp|]. split; [exact Hs|].
  exact (pdf_unavailable_answered demo_str None docx_rejecting (send cv_pdf)
           cv_pdf server_world (saved cv_pdf server_world)
           eq_refl eq_refl Hp Hs).
Defined.

Lemma supported_upload_parsed_witness :
  let pages := [py "Jane Doe"; py " - engineer"] in
  let fitz := Some (fitz_opening pages) in
  multidict_get (request_files (send cv_pdf)) (py "file") = Some cv_pdf
  /\ FileStorage_save cv_pdf (temp_path cv_pdf) server_world
     = (Return tt, saved cv_pdf server_world)
  /\ extracted_by_rule fitz docx_rejecting cv_pdf (saved cv_pdf server_world)
       (concat pages)
  /\ concat pages ≠ []
  /\ exists w',
       parse_document demo_str fitz docx_rejecting (send cv_pdf) server_world
       = (Return ([(py "parsedText", concat pages)], 200), w').
Proof.
  intros pages fitz.
  assert (FileStorage_save cv_pdf (temp_path cv_pdf) server_world
          = (Return tt, saved cv_pdf server_world)) as Hs
    by (vm_compute; reflexivity).
  assert (extracted_by_rule fitz docx_rejecting cv_pdf
            (saved cv_pdf server_world) (concat pages)) as Hrule.
  { apply (rule_pdf fitz docx_rejecting cv_pdf _ (fitz_opening pages)
             (pdf_of_pages pages) pages);
      [reflexivity | vm_compute; reflexivity | reflexivity
      | apply pdf_of_pages_gives | reflexivity]. }
  assert (concat pages ≠ []) as Hne by discriminate.
  split; [reflexivity|]. split; [exact Hs|]. split; [exact Hrule|].
  split; [exact Hne|].
  exact (supported_upload_parsed demo_str fitz docx_rejecting (send cv_pdf)
           cv_pdf server_world (saved cv_pdf server_world) (concat pages)
           eq_refl Hs Hrule Hne).
Defined.

Lemma unsupported_upload_rejected_witness :
  let w1 := saved notes_xyz server_world in
  let w2 := snd (os_remove (temp_path notes_xyz) w1) in
  multidict_get (request_files (send notes_xyz)) (py "file") = Some notes_xyz
  /\ filename notes_xyz ≠ []
  /\ supported (filename notes_xyz) = false
  /\ FileStorage_save notes_xyz (temp_path notes_xyz) server_world
     = (Return tt, w1)
  /\ os_remove (temp_path notes_xyz) w1 = (Return tt, w2)
  /\ parse_document demo_str None docx_rejecting (send notes_xyz)
       server_world
     = (Return ([(py "error", MSG_UNSUPPORTED)], 400), w2)
  /\ trace w2 = trace server_world
                ++ [Call_save (temp_path notes_xyz);
                    Call_remove (temp_path notes_xyz)]
  /\ exists p,
       resolve server_world (temp_path notes_xyz) = Some (Entry p) /\
       files w1 !! p = Some (File (stream notes_xyz)) /\
       files w2 !! p = None.
Proof.
  intros w1 w2.
  assert (filename notes_xyz ≠ []) as Hn by discriminate.
  assert (supported (filename notes_xyz) = false) as Hsup
    by (vm_compute; reflexivity).
  assert (FileStorage_save notes_xyz (temp_path notes_xyz) server_world
          = (Return tt, w1)) as Hs
    by (vm_compute; reflexivity).
  assert (os_remove (temp_path notes_xyz) w1 = (Return tt, w2)) as Hrm
    by (vm_compute; reflexivity).
  split; [reflexivity|]. split; [exact Hn|]. split; [exact Hsup|].
  split; [exact Hs|]. split; [exact Hrm|].
  exact (unsupported_upload_rejected demo_str None docx_rejecting
           (send notes_xyz) notes_xyz server_world w1 w2
           eq_refl Hn Hsup Hs Hrm).
Defined.

Lemma docx_paragraphs_joined_witness :
  let docx := docx_opening doc_A_B in
  let w1 := saved cv_docx server_world in
  multidict_get (request_files (send cv_docx)) (py "file") = Some cv_docx
  /\ endswith (lower (filename cv_docx)) (py ".docx") = true
  /\ FileStorage_save cv_docx (temp_path cv_docx) server_world
     = (Return tt, w1)
  /\ Document docx (files w1) (cwd w1) (temp_path cv_docx) = Return doc_A_B
  /\ fst (extract_text_from_docx demo_str docx (temp_path cv_docx) w1)
     = Return (Some (py "A" ++ [LF] ++ py "B" ++ [LF]), None)
  /\ exists w',
       parse_document demo_str None docx (send cv_docx) server_world
       = (Return ([(py "parsedText", py "A" ++ [LF] ++ py "B" ++ [LF])], 200),
          w').
Proof.
  intros docx w1.
  assert (endswith (lower (filename cv_docx)) (py ".docx") = true) as Hd
    by (vm_compute; reflexivity).
  assert (FileStorage_save cv_docx (temp_path cv_docx) server_world
          = (Return tt, w1)) as Hs
    by (vm_compute; reflexivity).
  split; [reflexivity|]. split; [exact Hd|]. split; [exact Hs|].
  split; [reflexivity|].
  destruct (docx_paragraphs_joined demo_str None docx (send cv_docx) cv_docx
              server_world w1 doc_A_B eq_refl Hd Hs eq_refl) as [Htext Hrun].
  split; [exact Htext|]. exact (Hrun eq_refl).
Defined.

Lemma txt_read_in_text_mode_witness :
  let s := py "hello" ++ [LF] ++ py "world" in
  multidict_get (request_files (send notes_txt)) (py "file") = Some notes_txt
  /\ endswith (lower (filename notes_txt)) (py ".txt") = true
  /\ FileStorage_save notes_txt (temp_path notes_txt) server_world
     = (Return tt, saved notes_txt server_world)
  /\ utf8_decode (stream notes_txt) = Some s
  /\ s ≠ []
  /\ (exists w',
        parse_document demo_str None docx_rejecting (send notes_txt)
          server_world
        = (Return ([(py "parsedText", universal_newlines s)], 200), w'))
  /\ (CR ∉ s -> universal_newlines s = s).
Proof.
  intros s.
  assert (endswith (lower (filename notes_txt)) (py ".txt") = true) as Ht
    by (vm_compute; reflexivity).
  assert (FileStorage_save notes_txt (temp_path notes_txt) server_world
          = (Return tt, saved notes_txt server_world)) as Hs
    by (vm_compute; reflexivity).
  assert (utf8_decode (stream notes_txt) = Some s) as Hu
    by (vm_compute; reflexivity).
  assert (s ≠ []) as Hne by discriminate.
  split; [reflexivity|]. split; [exact Ht|]. split; [exact Hs|].
  split; [exact Hu|]. split; [exact Hne|].
  exact (txt_read_in_text_mode demo_str None docx_rejecting (send notes_txt)
           notes_txt server_world (saved notes_txt server_world) s
           eq_refl Ht Hs Hu Hne).
Defined.

Lemma upload_path_unsanitized_witness :
  let w1 := saved evil_txt server_world in
  multidict_get (request_files (send evil_txt)) (py "file") = Some evil_txt
  /\ filename evil_txt ≠ []
  /\ FileStorage_save evil_txt
       (os_path_join UPLOAD_FOLDER (filename evil_txt)) server_world
     = (Return tt, w1)
  /\ (exists t,
        trace (snd (parse_document demo_str None docx_rejecting
                      (send evil_txt) server_world))
        = trace server_world
          ++ Call_save (os_path_join UPLOAD_FOLDER (filename evil_txt)) :: t)
  /\ exists p,
       resolve server_world (os_path_join UPLOAD_FOLDER (filename evil_txt))
       = Some (Entry p) /\
       files w1 !! p = Some (File (stream evil_txt)) /\
       parse_document demo_str None docx_rejecting (send evil_txt)
         server_world
       = finish_upload demo_str None docx_rejecting evil_txt w1.
Proof.
  intros w1.
  assert (filename evil_txt ≠ []) as Hn by discriminate.
  assert (FileStorage_save evil_txt
            (os_path_join UPLOAD_FOLDER (filename evil_txt)) server_world
          = (Return tt, w1)) as Hs
    by (vm_compute; reflexivity).
  split; [reflexivity|]. split; [exact Hn|]. split; [exact Hs|].
  split.
  - exact (proj1 (upload_path_unsanitized demo_str None docx_rejecting)
             (send evil_txt) evil_txt server_world eq_refl Hn).
  - exact (proj1 (proj2 (upload_path_unsanitized demo_str None
                           docx_rejecting))
             (send evil_txt) evil_txt server_world w1 eq_refl Hn Hs).
Defined.

(** The hello-world upload of the specification, run. *)
Example hello_world_response :
  fst (parse_document demo_str None docx_rejecting (send notes_txt)
         server_world)
  = Return ([(py "parsedText", py "hello" ++ [LF] ++ py "world")], 200).
Proof. vm_compute. reflexivity. Qed.

(* ===================================================================== *)
(** ** Inputs on which the specification's wording fails *)
(* ===================================================================== *)

(** C3 as stated fails: without PyMuPDF, an upload named [drafts/cv.pdf],
    for which the upload directory has no [drafts] directory, is not
    answered; [save] raises and the handler lets the exception out. *)
Lemma pdf_unavailable_unhandled_fault :
  endswith (lower (filename drafts_cv_pdf)) (py ".pdf") = true
  /\ fst (parse_document demo_str None docx_rejecting (send drafts_cv_pdf)
            server_world)
     = Raise (OSError (py "uploadresume/drafts/cv.pdf")).
Proof. split; vm_compute; reflexivity. Qed.

(** C4 as stated fails: a PDF whose single page has no text layer is
    opened and read without error, and is answered 500; and a [.txt] file
    with a Windows line ending is answered with a text that is not its
    content. *)
Lemma supported_upload_not_parsed :
  (extracted_by_rule (Some (fitz_opening [[]])) docx_rejecting cv_pdf
     (saved cv_pdf server_world) []
   /\ fst (parse_document demo_str (Some (fitz_opening [[]])) docx_rejecting
             (send cv_pdf) server_world)
      = Return ([(py "error", MSG_FAILED)], 500))
  /\ (utf8_decode (stream windows_txt) = Some (py "a" ++ [CR; LF] ++ py "b")
      /\ fst (parse_document demo_str None docx_rejecting (send windows_txt)
                server_world)
         = Return ([(py "parsedText", py "a" ++ [LF] ++ py "b")], 200)).
Proof.
  split; split; try (vm_compute; reflexivity).
  apply (rule_pdf _ docx_rejecting cv_pdf _ (fitz_opening [[]])
           (pdf_of_pages [[]]) [[]]);
    [reflexivity | vm_compute; reflexivity | reflexivity
    | apply pdf_of_pages_gives | reflexivity].
Qed.

(** C5 as stated fails: an upload named [drafts/notes.xyz] is not answered
    400; [save] raises and the handler lets the exception out. *)
Lemma unsupported_upload_unhandled_fault :
  filename drafts_notes_xyz ≠ []
  /\ supported (filename drafts_notes_xyz) = false
  /\ fst (parse_document demo_str None docx_rejecting
            (send drafts_notes_xyz) server_world)
     = Raise (OSError (py "uploadresume/drafts/notes.xyz")).
Proof. split; [discriminate|]. split; vm_compute; reflexivity. Qed.

(** C7 as stated fails: an empty [.txt] file decodes as UTF-8 and is
    answered 500 without [parsedText]; and a [.txt] file with a lone
    carriage return is answered with a text that is not its content. *)
Lemma txt_not_verbatim :
  (utf8_decode (stream blank_txt) = Some []
   /\ fst (parse_document demo_str None docx_rejecting (send blank_txt)
             server_world)
      = Return ([(py "error", MSG_FAILED)], 500))
  /\ (utf8_decode (stream oldmac_txt) = Some (py "a" ++ [CR] ++ py "b")
      /\ fst (parse_document demo_str None docx_rejecting (send oldmac_txt)
                server_world)
         = Return ([(py "parsedText", py "a" ++ [LF] ++ py "b")], 200)).
Proof. repeat split; vm_compute; reflexivity. Qed.

(* ===================================================================== *)
(** ** The extraction routines, case by case *)
(* ===================================================================== *)

Lemma is_dir_delete_file (fs : gmap (list str) node) (p q : list str) :
  fs !! p ≠ Some Dir ->
  is_dir (delete p fs) q = is_dir fs q.
Proof.
  intros Hp. unfold is_dir. destruct q as [|c q]; [done|].
  destruct (decide (p = c :: q)) as [->|Hne].
  - rewrite lookup_delete_eq.
    destruct (fs !! (c :: q)) as [[|d]|]; try done.
  - by rewrite lookup_delete_ne.
Qed.

(** The page loop stops at the first page that raises. *)
Lemma pdf_pages_loop_raises (doc : pdf_document) (e : exn) :
  forall (k n start : nat) (acc : str),
  (k < n)%nat ->
  (forall i, (i < k)%nat -> page_reads doc (start + i)) ->
  page_raises doc (start + k) e ->
  pdf_pages_loop doc (seq start n) acc = Raise e.
Proof.
  induction k as [|k IH]; intros n start acc Hlt Hpre Hbad.
  - destruct n as [|n]; [lia|]. simpl. rewrite Nat.add_0_r in Hbad.
    destruct Hbad as [-> | (page & -> & ->)]; done.
  - destruct n as [|n]; [lia|]. simpl.
    destruct (Hpre 0%nat ltac:(lia)) as (page & t & Hl & Hg).
    rewrite Nat.add_0_r in Hl. rewrite Hl, Hg.
    apply IH; [lia| |].
    + intros i Hi. specialize (Hpre (S i) ltac:(lia)).
      by rewrite Nat.add_succ_r in Hpre.
    + by rewrite Nat.add_succ_r in Hbad.
Qed.

Section RoutineCases.

Variable str_of_exception : exn -> str.
Variable docx : docx_module.

(** X1: when PyMuPDF opens the file, every page loads and gives its text,
    and the document closes, [extract_text_from_pdf] returns the page
    texts joined in page order and no message; it prints nothing and
    leaves the files and the working directory as they are. *)
Theorem pdf_text_is_pages_in_order (lib : fitz_module) (path : str)
    (w : world) (doc : pdf_document) (texts : list str) :
  fitz_open lib (files w) (cwd w) path = Return doc ->
  pages_give doc texts ->
  close doc = Return tt ->
  exists w' t,
    extract_text_from_pdf str_of_exception (Some lib) path w
    = (Return (Some (concat texts), None), w') /\
    files w' = files w /\ cwd w' = cwd w /\
    trace w' = trace w ++ t /\
    forall text, Call_print text ∉ t.
Proof.
  intros Ho [Hlen Hpages] Hc. unfold extract_text_from_pdf.
  unfold try_except, bind, emit, get_world, lift, ret. simpl.
  rewrite Ho, <- Hlen, pdf_pages_loop_concat by exact Hpages.
  rewrite Hc. eexists _, [_]. split; [reflexivity|]. simpl.
  split; [done|]. split; [done|]. split; [done|].
  intros text Hin. apply elem_of_cons in Hin as [Hin|Hin];
    [discriminate|by apply elem_of_nil in Hin].
Qed.

(** X2: when a page raises, at loading or at [get_text], after all the
    pages before it were read, [extract_text_from_pdf] drops the text
    gathered so far and returns no text and the message
    [Error extracting text from PDF: ] followed by [str(e)], which it
    also prints. *)
Theorem pdf_page_failure_discards_text (lib : fitz_module) (path : str)
    (w : world) (doc : pdf_document) (k : nat) (e : exn) :
  fitz_open lib (files w) (cwd w) path = Return doc ->
  (k < page_count doc)%nat ->
  (forall i, (i < k)%nat -> page_reads doc i) ->
  page_raises doc k e ->
  extract_text_from_pdf str_of_exception (Some lib) path w
  = (Return (None, Some (MSG_PDF ++ str_of_exception e)),
     World (files w) (cwd w)
           (trace w ++ [Call_fitz_open path;
                        Call_print (MSG_PDF ++ str_of_exception e)])).
Proof.
  intros Ho Hlt Hpre Hbad. unfold extract_text_from_pdf.
  unfold try_except, bind, emit, get_world, lift, ret, print. simpl.
  rewrite Ho, (pdf_pages_loop_raises doc e k) by done.
  simpl. by rewrite <- app_assoc.
Qed.

(** X3: when every page was read and [doc.close()] raises,
    [extract_text_from_pdf] returns no text, only the message with
    [str(e)]. *)
Theorem pdf_close_failure_discards_text (lib : fitz_module) (path : str)
    (w : world) (doc : pdf_document) (texts : list str) (e : exn) :
  fitz_open lib (files w) (cwd w) path = Return doc ->
  pages_give doc texts ->
  close doc = Raise e ->
  extract_text_from_pdf str_of_exception (Some lib) path w
  = (Return (None, Some (MSG_PDF ++ str_of_exception e)),
     World (files w) (cwd w)
           (trace w ++ [Call_fitz_open path;
                        Call_print (MSG_PDF ++ str_of_exception e)])).
Proof.
  intros Ho [Hlen Hpages] Hc. unfold extract_text_from_pdf.
  unfold try_except, bind, emit, get_world, lift, ret, print. simpl.
  rewrite Ho, <- Hlen, pdf_pages_loop_concat by exact Hpages.
  rewrite Hc. simpl. by rewrite <- app_assoc.
Qed.

(** X4: when [fitz.open] raises, [extract_text_from_pdf] returns no text
    and the message with [str(e)], which it also prints. *)
Theorem pdf_open_failure_reported (lib : fitz_module) (path : str)
    (w : world) (e : exn) :
  fitz_open lib (files w) (cwd w) path = Raise e ->
  extract_text_from_pdf str_of_exception (Some lib) path w
  = (Return (None, Some (MSG_PDF ++ str_of_exception e)),
     World (files w) (cwd w)
           (trace w ++ [Call_fitz_open path;
                        Call_print (MSG_PDF ++ str_of_exception e)])).
Proof.
  intros Ho. unfold extract_text_from_pdf.
  unfold try_except, bind, emit, get_world, lift, ret, print. simpl.
  rewrite Ho. simpl. by rewrite <- app_assoc.
Qed.

(** X5: whatever PyMuPDF does, [extract_text_from_pdf] returns and lets
    no exception out; it leaves the files and the working directory as
    they are; and its result is a text without a message, or a non-empty
    message without a text. *)
Theorem extract_text_from_pdf_safe (fitz : option fitz_module) (path : str)
    (w : world) :
  exists r w',
    extract_text_from_pdf str_of_exception fitz path w = (Return r, w') /\
    files w' = files w /\ cwd w' = cwd w /\
    ((exists t, r = (Some t, None)) \/
     (exists m, r = (None, Some m) /\ m ≠ [])).
Proof.
  destruct (extract_text_from_pdf_returns str_of_exception fitz path w)
    as (r & t & E & Hr).
  eexists r, _. split; [exact E|]. split; [done|]. split; [done|].
  destruct Hr as [Hr|(c & m & -> & _)]; [by left|right].
  eexists. split; [reflexivity|discriminate].
Qed.

(** X6: when [docx.Document] raises, [extract_text_from_docx] returns no
    text and the message [Error extracting text from DOCX: ] followed by
    [str(e)], which it also prints. *)
Theorem docx_open_failure_reported (path : str) (w : world) (e : exn) :
  Document docx (files w) (cwd w) path = Raise e ->
  extract_text_from_docx str_of_exception docx path w
  = (Return (None, Some (MSG_DOCX ++ str_of_exception e)),
     World (files w) (cwd w)
           (trace w ++ [Call_docx_Document path;
                        Call_print (MSG_DOCX ++ str_of_exception e)])).
Proof.
  intros Ho. unfold extract_text_from_docx.
  unfold try_except, bind, emit, get_world, lift, ret, print. simpl.
  rewrite Ho. simpl. by rewrite <- app_assoc.
Qed.

(** X7: whatever python-docx does, [extract_text_from_docx] returns and
    lets no exception out; it leaves the files and the working directory
    as they are; and its result is a text without a message, or a
    non-empty message without a text. *)
Theorem extract_text_from_docx_safe (path : str) (w : world) :
  exists r w',
    extract_text_from_docx str_of_exception docx path w = (Return r, w') /\
    files w' = files w /\ cwd w' = cwd w /\
    ((exists t, r = (Some t, None)) \/
     (exists m, r = (None, Some m) /\ m ≠ [])).
Proof.
  destruct (extract_text_from_docx_returns str_of_exception docx path w)
    as (r & t & E & Hr).
  eexists r, _. split; [exact E|]. split; [done|]. split; [done|].
  destruct Hr as [Hr|(c & m & -> & _)]; [by left|right].
  eexists. split; [reflexivity|discriminate].
Qed.

End RoutineCases.

(* ===================================================================== *)
(** ** The handler, case by case *)
(* ===================================================================== *)

(** Bytes below 128 decode to themselves. *)
Lemma utf8_decode_ascii (bs : bytes) :
  Forall (fun b => Byte.to_N b < 128) bs ->
  utf8_decode bs = Some (map Byte.to_N bs).
Proof.
  induction 1 as [|b bs Hb _ IH]; [done|].
  simpl. apply N.ltb_lt in Hb. rewrite Hb, IH. done.
Qed.

(** Text mode leaves no carriage return. *)
Lemma universal_newlines_has_no_CR (s : str) : CR ∉ universal_newlines s.
Proof.
  assert (forall n (s : str), (List.length s <= n)%nat ->
            CR ∉ universal_newlines s) as H.
  { clear s. induction n as [|n IH]; intros s Hn.
    - destruct s; [|simpl in Hn; lia]. simpl. apply not_elem_of_nil.
    - destruct s as [|c r]; [simpl; apply not_elem_of_nil|].
      simpl in Hn. simpl. destruct (c =? CR) eqn:E.
      + apply not_elem_of_cons. split; [done|].
        destruct r as [|d r']; [apply not_elem_of_nil|].
        simpl in Hn. destruct (d =? LF); apply IH; simpl; lia.
      + apply not_elem_of_cons. split.
        * apply N.eqb_neq in E. congruence.
        * apply IH. lia. }
  by apply (H (List.length s)).
Qed.

Section HandlerCases.

Variable str_of_exception : exn -> str.
Variable fitz : option fitz_module.
Variable docx : docx_module.

(** The branch on the extension makes no call that writes or removes. *)
Lemma extraction_step_only_reads (name path : str) (w : world) :
  exists r t,
    extraction_step str_of_exception fitz docx name path w
    = (Return r, World (files w) (cwd w) (trace w ++ t)) /\
    forallb is_read_call t = true.
Proof.
  destruct w as [fs cw tr].
  unfold extraction_step, extract_text_from_pdf, extract_text_from_docx,
    extract_text_from_txt.
  destruct (endswith (lower name) (py ".pdf")).
  { destruct fitz as [lib|];
      unfold try_except, bind, emit, get_world, lift, ret, print; simpl.
    - destruct (fitz_open lib fs cw path) as [doc|e]; simpl.
      + destruct (pdf_pages_loop doc _ []) as [txt|e]; simpl.
        * destruct (close doc) as [u|e]; simpl.
          -- by eexists _, [_].
          -- eexists _, [_; _]. by rewrite <- app_assoc.
        * eexists _, [_; _]. by rewrite <- app_assoc.
      + eexists _, [_; _]. by rewrite <- app_assoc.
    - eexists _, []. by rewrite app_nil_r. }
  destruct (endswith (lower name) (py ".docx")).
  { unfold try_except, bind, emit, get_world, lift, ret, print; simpl.
    destruct (Document docx fs cw path) as [doc|e]; simpl.
    - by eexists _, [_].
    - eexists _, [_; _]. by rewrite <- app_assoc. }
  destruct (endswith (lower name) (py ".txt")).
  { unfold try_except, bind, ret. rewrite read_text_run. simpl.
    destruct (bool_decide (0 ∈ path)); [by eexists _, [_]|].
    destruct (resolve _ path) as [[d|p]|]; try by eexists _, [_].
    destruct (fs !! p) as [[|d]|]; try by eexists _, [_].
    destruct (utf8_decode d); by eexists _, [_]. }
  unfold ret. eexists _, []. by rewrite app_nil_r.
Qed.

(** A saved [.txt] upload that does not decode. *)
Lemma extraction_step_txt_undecodable (name path : str) (w : world)
    (p : list str) (data : bytes) :
  endswith (lower name) (py ".txt") = true ->
  0 ∉ path ->
  resolve w path = Some (Entry p) ->
  files w !! p = Some (File data) ->
  utf8_decode data = None ->
  fst (extraction_step str_of_exception fitz docx name path w)
  = Return (Some (None, Some (MSG_TXT
                              ++ str_of_exception (UnicodeDecodeError data)))).
Proof.
  intros Ht H0 Hp Hf Hu. unfold extraction_step, extract_text_from_txt.
  rewrite (txt_not_pdf _ Ht), (txt_not_docx _ Ht), Ht.
  unfold try_except, bind, ret. rewrite read_text_run. simpl.
  rewrite bool_decide_eq_false_2 by done.
  by rewrite Hp, Hf, Hu.
Qed.

(** The text of the rule is what the branch on the extension extracts. *)
Lemma rule_extraction_step (file : FileStorage) (w w1 : world)
    (extracted : str) :
  FileStorage_save file (temp_path file) w = (Return tt, w1) ->
  extracted_by_rule fitz docx file w1 extracted ->
  filename file ≠ [] /\
  fst (extraction_step str_of_exception fitz docx (filename file)
         (temp_path file) w1)
  = Return (Some (Some extracted, None)).
Proof.
  intros Hs Hrule.
  destruct Hrule as [lib doc texts Hfz Hp Ho Hg Hc | doc Hd Ho | s Ht Hu].
  - split; [by apply (endswith_lower_nonempty _ _ Hp)|].
    by apply (extraction_step_pdf_ok _ _ _ _ _ _ lib doc).
  - split; [by apply (endswith_lower_nonempty _ _ Hd)|].
    by apply extraction_step_docx_ok.
  - split; [by apply (endswith_lower_nonempty _ _ Ht)|].
    destruct (saved_file_readable _ _ _ _ Hs) as (H0 & p & Hp & Hfile).
    by apply (extraction_step_txt_ok _ _ _ _ _ _ p (stream file)).
Qed.

(** X8: a saved [.docx] upload that python-docx opens with at least one
    paragraph is answered 200, with each paragraph's text followed by a
    newline as [parsedText], also when every paragraph is empty. *)
Theorem docx_with_paragraph_answered_200 (request : Request)
    (file : FileStorage) (w w1 : world) (doc : docx_document) :
  multidict_get (request_files request) (py "file") = Some file ->
  endswith (lower (filename file)) (py ".docx") = true ->
  FileStorage_save file (temp_path file) w = (Return tt, w1) ->
  Document docx (files w1) (cwd w1) (temp_path file) = Return doc ->
  paragraphs doc ≠ [] ->
  exists w',
    parse_document str_of_exception fitz docx request w
    = (Return ([(py "parsedText",
                 concat (map (fun p => text p ++ [LF]) (paragraphs doc)))],
               200), w').
Proof.
  intros Hf Hd Hs Ho Hne.
  assert (filename file ≠ []) as Hn
    by (by apply (endswith_lower_nonempty _ _ Hd)).
  pose proof (extraction_step_docx_ok str_of_exception fitz docx
                _ _ _ _ Hd Ho) as E.
  destruct (response_when_extracted str_of_exception fitz docx _ _ _ _ _
              Hf Hn Hs E) as (w' & ->).
  exists w'. unfold response_of.
  destruct (paragraphs doc) as [|p ps]; [done|].
  simpl. by destruct (text p).
Qed.

(** X9: a saved [.docx] upload that python-docx opens without any
    paragraph is answered 500 with the generic failure message. *)
Theorem docx_without_paragraph_answered_500 (request : Request)
    (file : FileStorage) (w w1 : world) (doc : docx_document) :
  multidict_get (request_files request) (py "file") = Some file ->
  endswith (lower (filename file)) (py ".docx") = true ->
  FileStorage_save file (temp_path file) w = (Return tt, w1) ->
  Document docx (files w1) (cwd w1) (temp_path file) = Return doc ->
  paragraphs doc = [] ->
  exists w',
    parse_document str_of_exception fitz docx request w
    = (Return ([(py "error", MSG_FAILED)], 500), w').
Proof.
  intros Hf Hd Hs Ho Hnil.
  assert (filename file ≠ []) as Hn
    by (by apply (endswith_lower_nonempty _ _ Hd)).
  pose proof (extraction_step_docx_ok str_of_exception fitz docx
                _ _ _ _ Hd Ho) as E.
  destruct (response_when_extracted str_of_exception fitz docx _ _ _ _ _
              Hf Hn Hs E) as (w' & ->).
  exists w'. by rewrite Hnil.
Qed.

(** X10: a saved [.txt] upload whose content is not valid UTF-8 is
    answered 500 with [Error reading TXT file: ] followed by [str(e)] of the
    [UnicodeDecodeError] on that content. *)
Theorem txt_undecodable_answered_500 (request : Request)
    (file : FileStorage) (w w1 : world) :
  multidict_get (request_files request) (py "file") = Some file ->
  endswith (lower (filename file)) (py ".txt") = true ->
  FileStorage_save file (temp_path file) w = (Return tt, w1) ->
  utf8_decode (stream file) = None ->
  exists w',
    parse_document str_of_exception fitz docx request w
    = (Return ([(py "error",
                 MSG_TXT
                 ++ str_of_exception (UnicodeDecodeError (stream file)))],
               500), w').
Proof.
  intros Hf Ht Hs Hu.
  assert (filename file ≠ []) as Hn
    by (by apply (endswith_lower_nonempty _ _ Ht)).
  destruct (saved_file_readable _ _ _ _ Hs) as (H0 & p & Hp & Hfile).
  pose proof (extraction_step_txt_undecodable _ _ _ _ _ Ht H0 Hp Hfile Hu)
    as E.
  destruct (response_when_extracted str_of_exception fitz docx _ _ _ _ _
              Hf Hn Hs E) as (w' & ->).
  by exists w'.
Qed.

(** X11: a saved [.txt] upload whose content is non-empty, all of bytes
    below 128 and without a carriage return is answered 200 with those
    bytes, as characters, for [parsedText]. *)
Theorem txt_ascii_returned_verbatim (request : Request)
    (file : FileStorage) (w w1 : world) :
  multidict_get (request_files request) (py "file") = Some file ->
  endswith (lower (filename file)) (py ".txt") = true ->
  FileStorage_save file (temp_path file) w = (Return tt, w1) ->
  stream file ≠ [] ->
  Forall (fun b => Byte.to_N b < 128 /\ Byte.to_N b ≠ CR) (stream file) ->
  exists w',
    parse_document str_of_exception fitz docx request w
    = (Return ([(py "parsedText", map Byte.to_N (stream file))], 200), w').
Proof.
  intros Hf Ht Hs Hne Hall.
  assert (filename file ≠ []) as Hn
    by (by apply (endswith_lower_nonempty _ _ Ht)).
  assert (utf8_decode (stream file) = Some (map Byte.to_N (stream file)))
    as Hu.
  { apply utf8_decode_ascii. eapply Forall_impl; [exact Hall|].
    by intros b [? _]. }
  assert (universal_newlines (map Byte.to_N (stream file))
          = map Byte.to_N (stream file)) as Hnl.
  { apply universal_newlines_no_CR. intros Hin.
    apply list_elem_of_fmap in Hin as (b & Hb & Hin).
    rewrite Forall_forall in Hall. destruct (Hall b Hin) as [_ Hcr].
    by apply Hcr. }
  destruct (saved_file_readable _ _ _ _ Hs) as (H0 & p & Hp & Hfile).
  pose proof (extraction_step_txt_ok str_of_exception fitz docx
                _ _ _ _ _ _ Ht H0 Hp Hfile Hu) as E.
  rewrite Hnl in E.
  destruct (response_when_extracted str_of_exception fitz docx _ _ _ _ _
              Hf Hn Hs E) as (w' & ->).
  exists w'. unfold response_of. simpl.
  destruct (stream file); [done|]. done.
Qed.

(** X12: the [parsedText] answered to a saved [.txt] upload never contains
    a carriage return. *)
Theorem txt_response_has_no_carriage_return (request : Request)
    (file : FileStorage) (w w1 w' : world) (parsed : str) :
  multidict_get (request_files request) (py "file") = Some file ->
  endswith (lower (filename file)) (py ".txt") = true ->
  FileStorage_save file (temp_path file) w = (Return tt, w1) ->
  parse_document str_of_exception fitz docx request w
  = (Return ([(py "parsedText", parsed)], 200), w') ->
  CR ∉ parsed.
Proof.
  intros Hf Ht Hs Hrun.
  assert (filename file ≠ []) as Hn
    by (by apply (endswith_lower_nonempty _ _ Ht)).
  destruct (saved_file_readable _ _ _ _ Hs) as (H0 & p & Hp & Hfile).
  destruct (utf8_decode (stream file)) as [s|] eqn:Hu.
  - pose proof (extraction_step_txt_ok str_of_exception fitz docx
                  _ _ _ _ _ _ Ht H0 Hp Hfile Hu) as E.
    destruct (response_when_extracted str_of_exception fitz docx _ _ _ _ _
                Hf Hn Hs E) as (w2 & Hrun2).
    rewrite Hrun2 in Hrun. unfold response_of in Hrun. simpl in Hrun.
    destruct (str_truthy (universal_newlines s)); [|discriminate].
    injection Hrun as <- _. apply universal_newlines_has_no_CR.
  - pose proof (extraction_step_txt_undecodable _ _ _ _ _ Ht H0 Hp Hfile Hu)
      as E.
    destruct (response_when_extracted str_of_exception fitz docx _ _ _ _ _
                Hf Hn Hs E) as (w2 & Hrun2).
    rewrite Hrun2 in Hrun. discriminate.
Qed.

End HandlerCases.

(* ===================================================================== *)
(** ** The handler as a whole *)
(* ===================================================================== *)

Lemma split_slash_aux_no_slash (s cur : str) :
  SLASH ∉ s -> split_slash_aux s cur = [cur ++ s].
Proof.
  revert cur. induction s as [|c r IH]; intros cur H.
  - simpl. by rewrite app_nil_r.
  - apply not_elem_of_cons in H as [Hc Hr]. simpl.
    destruct (c =? SLASH) eqn:E.
    + apply N.eqb_eq in E. congruence.
    + rewrite IH by done. by rewrite <- app_assoc.
Qed.

Lemma simple_name_inv (name : str) :
  simple_name name = true ->
  name ≠ [] /\ (SLASH ∉ name) /\ (0 ∉ name) /\ name ≠ DOT /\ name ≠ DOTDOT.
Proof.
  unfold simple_name. rewrite !andb_true_iff, !negb_true_iff.
  rewrite !bool_decide_eq_false, str_truthy_true. tauto.
Qed.

(** The temporary path of a simple filename leads into the upload
    directory. *)
Lemma resolve_simple_name (w : world) (name : str) :
  simple_name name = true ->
  is_dir (files w) (upload_dir w) = true ->
  (0 ∉ os_path_join UPLOAD_FOLDER name) /\
  (resolve w (os_path_join UPLOAD_FOLDER name)
   = Some (Entry (upload_dir w ++ [name]))).
Proof.
  intros Hsimple Hdir.
  destruct (simple_name_inv _ Hsimple) as (Hn & Hslash & H0 & Hdot & Hdd).
  assert (os_path_join UPLOAD_FOLDER name = UPLOAD_FOLDER ++ SLASH :: name)
    as ->.
  { unfold os_path_join, startswith.
    rewrite bool_decide_eq_false_2.
    - reflexivity.
    - intros [k Hk]. destruct name as [|c r]; [done|].
      injection Hk as -> _. apply Hslash. left. }
  split.
  { intros Hin. apply elem_of_app in Hin as [Hin|Hin].
    - vm_compute in Hin. by repeat (apply elem_of_cons in Hin as [Hin|Hin];
        [discriminate|]); apply elem_of_nil in Hin.
    - apply elem_of_cons in Hin as [Hin|Hin]; [discriminate|done]. }
  unfold resolve.
  assert (split_slash (UPLOAD_FOLDER ++ SLASH :: name)
          = [UPLOAD_FOLDER; name]) as ->.
  { unfold split_slash. cbn -[split_slash_aux].
    change (split_slash_aux
              (117 :: 112 :: 108 :: 111 :: 97 :: 100 :: 114 :: 101 :: 115
               :: 117 :: 109 :: 101 :: SLASH :: name) [])
      with (UPLOAD_FOLDER :: split_slash_aux name []).
    by rewrite split_slash_aux_no_slash. }
  cbn -[walk is_dir]. simpl walk.
  unfold upload_dir in *.
  let v := eval vm_compute in UPLOAD_FOLDER in
    change UPLOAD_FOLDER with v in *.
  rewrite Hdir. simpl.
  rewrite !bool_decide_eq_false_2 by done. done.
Qed.

Section Whole.

Variable str_of_exception : exn -> str.
Variable fitz : option fitz_module.
Variable docx : docx_module.

(** X13: when an upload with a non-empty filename is answered, the files
    after the request are the files before it without the entry of the
    temporary path; the working directory is unchanged; and when no entry
    existed at that path the files are exactly as before. *)
Theorem answered_upload_restores_files (request : Request)
    (file : FileStorage) (w w' : world) (response : json * N) :
  multidict_get (request_files request) (py "file") = Some file ->
  filename file ≠ [] ->
  parse_document str_of_exception fitz docx request w
  = (Return response, w') ->
  exists p,
    resolve w (temp_path file) = Some (Entry p) /\
    files w' = delete p (files w) /\
    cwd w' = cwd w /\
    (files w !! p = None -> files w' = files w).
Proof.
  intros Hf Hn Hrun.
  destruct (FileStorage_save file (temp_path file) w) as [[[]|e] w1] eqn:Hs.
  - destruct (parse_document_saved str_of_exception fitz docx _ _ _ _
                Hf Hn Hs) as (p & r & t & Hp & _ & _ & _ & Hrun').
    rewrite Hrun' in Hrun. injection Hrun as _ <-.
    exists p. simpl. split; [done|]. split; [done|]. split; [done|].
    intros Hnone. by apply delete_id.
  - rewrite (parse_document_save_raises str_of_exception fitz docx
               _ _ _ _ _ Hf Hn Hs) in Hrun.
    discriminate.
Qed.

(** X14: no run of the handler, answered or not, creates or removes a
    directory or changes the working directory. *)
Theorem handler_keeps_directories (request : Request) (w : world) :
  (forall q,
     is_dir (files (snd (parse_document str_of_exception fitz docx
                           request w))) q
     = is_dir (files w) q) /\
  cwd (snd (parse_document str_of_exception fitz docx request w)) = cwd w.
Proof.
  destruct (multidict_get (request_files request) (py "file"))
    as [file|] eqn:Hf.
  2: { by rewrite parse_document_no_part. }
  destruct (decide (filename file = [])) as [Hn|Hn].
  { by rewrite (parse_document_no_name _ _ _ _ file). }
  destruct (FileStorage_save file (temp_path file) w) as [[[]|e] w1] eqn:Hs.
  - destruct (parse_document_saved str_of_exception fitz docx _ _ _ _
                Hf Hn Hs) as (p & r & t & Hp & _ & _ & _ & ->).
    destruct (save_returns _ _ _ _ Hs) as (p' & _ & Hp' & Hnd & _).
    assert (p' = p) as -> by congruence.
    simpl. split; [|done]. intros q. by apply is_dir_delete_file.
  - rewrite (parse_document_save_raises str_of_exception fitz docx
               _ _ _ _ _ Hf Hn Hs). simpl.
    destruct (save_raises _ _ _ _ _ Hs) as (-> & -> & _). done.
Qed.


(** X16: every response of the handler is one of: status 200 with the
    single key [parsedText] and a non-empty text; status 400 with the
    single key [error] and one of the three input messages; status 500
    with the single key [error] and a non-empty message. *)
Theorem response_shape (request : Request) (w w' : world)
    (body : json) (status : N) :
  parse_document str_of_exception fitz docx request w
  = (Return (body, status), w') ->
  (status = 200 /\ exists c t, body = [(py "parsedText", c :: t)]) \/
  (status = 400 /\
   exists m, body = [(py "error", m)] /\
             (m = MSG_NO_PART \/ m = MSG_NO_SELECTED \/ m = MSG_UNSUPPORTED))
  \/
  (status = 500 /\ exists c m, body = [(py "error", c :: m)]).
Proof.
  intros Hrun.
  destruct (multidict_get (request_files request) (py "file"))
    as [file|] eqn:Hf.
  2: { rewrite parse_document_no_part in Hrun by done.
       injection Hrun as <- <- _. right. left. eauto. }
  destruct (decide (filename file = [])) as [Hn|Hn].
  { rewrite (parse_document_no_name _ _ _ _ file) in Hrun by done.
    injection Hrun as <- <- _. right. left. eauto 6. }
  destruct (FileStorage_save file (temp_path file) w) as [[[]|e1] w1] eqn:Hs.
  - destruct (parse_document_saved str_of_exception fitz docx _ _ _ _
                Hf Hn Hs) as (p & r & t & _ & _ & _ & Hr & Hrun').
    rewrite Hrun' in Hrun. injection Hrun as Hresp _.
    destruct r as [[extracted_text error_message]|].
    + destruct Hr as [_ [(txt & [= -> ->])|(c & m & [= -> ->] & _)]].
      * destruct txt as [|c txt]; simpl in Hresp; injection Hresp as <- <-.
        -- right. right. split; [done|]. vm_compute. eauto.
        -- left. eauto.
      * simpl in Hresp. injection Hresp as <- <-. right. right. eauto.
    + simpl in Hresp. injection Hresp as <- <-. right. left. eauto 7.
  - rewrite (parse_document_save_raises str_of_exception fitz docx
               _ _ _ _ _ Hf Hn Hs) in Hrun.
    discriminate.
Qed.

(** X17: in every answered run for an upload with a non-empty filename,
    the calls are: one [save] of the temporary path, then calls that only
    read, then one [os.remove] of the same path. *)
Theorem one_save_one_remove (request : Request) (file : FileStorage)
    (w w' : world) (response : json * N) :
  multidict_get (request_files request) (py "file") = Some file ->
  filename file ≠ [] ->
  parse_document str_of_exception fitz docx request w
  = (Return response, w') ->
  exists t,
    trace w' = trace w ++ [Call_save (temp_path file)] ++ t
                       ++ [Call_remove (temp_path file)] /\
    forallb is_read_call t = true.
Proof.
  intros Hf Hn Hrun.
  destruct (FileStorage_save file (temp_path file) w) as [[[]|e1] w1] eqn:Hs.
  - destruct (parse_document_saved str_of_exception fitz docx _ _ _ _
                Hf Hn Hs) as (p & r & t & _ & _ & E & _ & Hrun').
    rewrite Hrun' in Hrun. injection Hrun as _ <-.
    destruct (extraction_step_only_reads str_of_exception fitz docx
                (filename file) (temp_path file) w1)
      as (r2 & t2 & E2 & Hreads).
    rewrite E in E2. injection E2 as _ Et.
    apply app_inv_head in Et. subst t2.
    exists t. by split.
  - rewrite (parse_document_save_raises str_of_exception fitz docx
               _ _ _ _ _ Hf Hn Hs) in Hrun.
    discriminate.
Qed.

(** X18: for a filename that is a single path component, in a world
    where the upload directory exists, the temporary path leads to the
    entry of that name directly inside the upload directory; a save that
    succeeds writes that entry and no other; and a run that is answered
    leaves the files as they were, without that entry. *)
Theorem simple_filename_stays_in_upload_dir (request : Request)
    (file : FileStorage) (w : world) :
  multidict_get (request_files request) (py "file") = Some file ->
  simple_name (filename file) = true ->
  is_dir (files w) (upload_dir w) = true ->
  resolve w (temp_path file)
  = Some (Entry (upload_dir w ++ [filename file])) /\
  (forall w1,
     FileStorage_save file (temp_path file) w = (Return tt, w1) ->
     files w1 = <[upload_dir w ++ [filename file] := File (stream file)]>
                  (files w)) /\
  (forall response w',
     parse_document str_of_exception fitz docx request w
     = (Return response, w') ->
     files w' = delete (upload_dir w ++ [filename file]) (files w)).
Proof.
  intros Hf Hsimple Hdir.
  destruct (resolve_simple_name w _ Hsimple Hdir) as [H0 Hp].
  fold (temp_path file) in H0, Hp.
  destruct (simple_name_inv _ Hsimple) as (Hn & _).
  split; [exact Hp|]. split.
  - intros w1 Hs.
    destruct (save_returns _ _ _ _ Hs) as (p & _ & Hp' & _ & ->).
    simpl. congruence.
  - intros response w' Hrun.
    destruct (FileStorage_save file (temp_path file) w)
      as [[[]|e] w1] eqn:Hs.
    + destruct (parse_document_saved str_of_exception fitz docx _ _ _ _
                  Hf Hn Hs) as (p & r & t & Hp' & _ & _ & _ & Hrun').
      rewrite Hrun' in Hrun. injection Hrun as _ <-. simpl. congruence.
    + rewrite (parse_document_save_raises str_of_exception fitz docx
                 _ _ _ _ _ Hf Hn Hs) in Hrun.
      discriminate.
Qed.

(** X19: the handler looks only at the first part named [file]: a
    request is handled as the request that sends that part alone. *)
Theorem first_file_part_decides (request : Request) (file : FileStorage)
    (w : world) :
  multidict_get (request_files request) (py "file") = Some file ->
  parse_document str_of_exception fitz docx request w
  = parse_document str_of_exception fitz docx (send file) w.
Proof.
  intros Hf.
  assert (multidict_get (request_files (send file)) (py "file") = Some file)
    as Hf' by reflexivity.
  destruct (decide (filename file = [])) as [Hn|Hn].
  - rewrite (parse_document_no_name _ _ _ _ file) by done.
    by rewrite (parse_document_no_name _ _ _ (send file) file).
  - rewrite (parse_document_named _ _ _ _ _ _ Hf Hn).
    by rewrite (parse_document_named _ _ _ _ _ _ Hf' Hn).
Qed.

(** X20: without PyMuPDF, a [.pdf] upload whose temporary file was saved
    is removed again and answered 500 with the library-unavailable
    message: the calls of the run are the save and the removal, with no
    call to open a document and nothing printed, and the files end
    without the temporary entry. *)
Theorem pdf_unavailable_calls (request : Request) (file : FileStorage)
    (w w1 : world) :
  fitz = None ->
  multidict_get (request_files request) (py "file") = Some file ->
  endswith (lower (filename file)) (py ".pdf") = true ->
  FileStorage_save file (temp_path file) w = (Return tt, w1) ->
  exists p,
    resolve w (temp_path file) = Some (Entry p) /\
    parse_document str_of_exception fitz docx request w
    = (Return ([(py "error", MSG_NO_FITZ)], 500),
       World (delete p (files w)) (cwd w)
             (trace w ++ [Call_save (temp_path file);
                          Call_remove (temp_path file)])).
Proof.
  intros Hfz Hf Hp Hs.
  assert (filename file ≠ []) as Hn
    by (by apply (endswith_lower_nonempty _ _ Hp)).
  destruct (parse_document_saved str_of_exception fitz docx _ _ _ _
              Hf Hn Hs) as (p & r & t & Hres & _ & E & _ & Hrun).
  exists p. split; [done|].
  rewrite (extraction_step_pdf_unavailable _ _ _ _ _ _ Hfz Hp) in E.
  destruct w1 as [fs1 cw1 tr1]. simpl in E.
  injection E as <- Et.
  assert (t = []) as ->.
  { apply (app_inv_head tr1). by rewrite app_nil_r. }
  exact Hrun.
Qed.

(** X21: a saved upload of a supported type whose content is valid and
    whose extraction succeeds with the empty text is answered 500 with the
    generic failure message. *)
Theorem empty_extraction_answered_500 (request : Request)
    (file : FileStorage) (w w1 : world) :
  multidict_get (request_files request) (py "file") = Some file ->
  FileStorage_save file (temp_path file) w = (Return tt, w1) ->
  extracted_by_rule fitz docx file w1 [] ->
  exists w',
    parse_document str_of_exception fitz docx request w
    = (Return ([(py "error", MSG_FAILED)], 500), w').
Proof.
  intros Hf Hs Hrule.
  destruct (rule_extraction_step str_of_exception fitz docx _ _ _ _
              Hs Hrule) as [Hn E].
  exact (response_when_extracted str_of_exception fitz docx _ _ _ _ _
           Hf Hn Hs E).
Qed.

End Whole.

(* ===================================================================== *)
(** ** Start-up *)
(* ===================================================================== *)

(** What the module-level [os.makedirs] does, by what is found at the
    upload directory. *)
Lemma startup_run (w : world) :
  startup w =
  match files w !! upload_dir w with
  | Some Dir => (Return tt, World (files w) (cwd w) (trace w))
  | Some (File _) => (Raise (OSError UPLOAD_FOLDER), w)
  | None =>
    (Return tt,
     World (<[upload_dir w := Dir]> (files w)) (cwd w) (trace w))
  end.
Proof.
  unfold startup, os_makedirs, check_path, bind, get_world, set_files,
    raise, ret, upload_dir.
  let v := eval vm_compute in UPLOAD_FOLDER in
    change UPLOAD_FOLDER with v.
  rewrite bool_decide_eq_false_2.
  2: { intros Hin.
       by repeat (apply elem_of_cons in Hin as [Hin|Hin]; [discriminate|]);
         apply elem_of_nil in Hin. }
  cbn -[lookup insert].
  destruct (files w !! _) as [[|d]|]; reflexivity.
Qed.

(** X22: when start-up returns, the upload directory exists, every other
    entry, the working directory and the trace are as before, and
    running start-up again changes nothing. *)
Theorem startup_ensures_upload_dir (w w' : world) :
  startup w = (Return tt, w') ->
  is_dir (files w') (upload_dir w') = true /\
  cwd w' = cwd w /\ trace w' = trace w /\
  (forall q, q ≠ upload_dir w -> files w' !! q = files w !! q) /\
  startup w' = (Return tt, w').
Proof.
  rewrite startup_run. intros H.
  assert (forall fs, is_dir fs (upload_dir w) = true
                     <-> fs !! upload_dir w = Some Dir) as Hdir.
  { intros fs. unfold is_dir, upload_dir.
    destruct (cwd w ++ [UPLOAD_FOLDER]) eqn:E.
    - by apply app_nil in E as [_ ?].
    - destruct (fs !! (l :: l0)) as [[|d]|]; split; congruence. }
  destruct (files w !! upload_dir w) as [[|d]|] eqn:E;
    try discriminate; injection H as <-.
  - unfold upload_dir in *. simpl.
    split; [by apply Hdir|]. split; [done|]. split; [done|].
    split; [done|]. rewrite startup_run. unfold upload_dir. simpl.
    by rewrite E.
  - unfold upload_dir in *. simpl.
    split; [apply Hdir; by rewrite lookup_insert_eq|].
    split; [done|]. split; [done|].
    split; [intros q Hq; by rewrite lookup_insert_ne|].
    rewrite startup_run. unfold upload_dir. simpl.
    by rewrite lookup_insert_eq.
Qed.

(** X23: when a regular file stands where the upload directory should
    be, start-up raises [OSError] and changes nothing. *)
Theorem startup_fails_on_regular_file (w : world) (data : bytes) :
  files w !! upload_dir w = Some (File data) ->
  startup w = (Raise (OSError UPLOAD_FOLDER), w).
Proof.
  intros H. rewrite startup_run. by rewrite H.
Qed.

(* ===================================================================== *)
(** ** The case-by-case properties on the example deployment *)
(* ===================================================================== *)

Lemma pdf_with_bad_page_reads (pages : list str) (e : exn) (i : nat) :
  (i < List.length pages)%nat -> page_reads (pdf_with_bad_page pages e) i.
Proof.
  intros Hi. destruct (lookup_lt_is_Some_2 pages i Hi) as [t Ht].
  unfold page_reads. simpl. rewrite Ht. eauto.
Qed.

Lemma pdf_with_bad_close_gives (pages : list str) (e : exn) :
  pages_give (pdf_with_bad_close pages e) pages.
Proof.
  split; [done|]. intros i t Hi. simpl. rewrite Hi. eauto.
Qed.

Lemma pdf_text_is_pages_in_order_witness :
  let pages := [py "Jane Doe"; py " - engineer"] in
  let path := py "uploadresume/cv.pdf" in
  fitz_open (fitz_opening pages) (files server_world) (cwd server_world) path
  = Return (pdf_of_pages pages)
  /\ pages_give (pdf_of_pages pages) pages
  /\ close (pdf_of_pages pages) = Return tt
  /\ exists w' t,
       extract_text_from_pdf demo_str (Some (fitz_opening pages)) path
         server_world
       = (Return (Some (concat pages), None), w') /\
       files w' = files server_world /\ cwd w' = cwd server_world /\
       trace w' = trace server_world ++ t /\
       forall text, Call_print text ∉ t.
Proof.
  intros pages path.
  split; [reflexivity|]. split; [apply pdf_of_pages_gives|].
  split; [reflexivity|].
  exact (pdf_text_is_pages_in_order demo_str (fitz_opening pages) path
           server_world (pdf_of_pages pages) pages eq_refl
           (pdf_of_pages_gives pages) eq_refl).
Defined.

Lemma pdf_page_failure_discards_text_witness :
  let e := ForeignError (py "bad xref") in
  let doc := pdf_with_bad_page [py "Jane Doe"] e in
  let path := py "uploadresume/cv.pdf" in
  fitz_open (fitz_giving doc) (files server_world) (cwd server_world) path
  = Return doc
  /\ (1 < page_count doc)%nat
  /\ (forall i, (i < 1)%nat -> page_reads doc i)
  /\ page_raises doc 1 e
  /\ extract_text_from_pdf demo_str (Some (fitz_giving doc)) path server_world
     = (Return (None, Some (MSG_PDF ++ demo_str e)),
        World (files server_world) (cwd server_world)
              (trace server_world
               ++ [Call_fitz_open path;
                   Call_print (MSG_PDF ++ demo_str e)])).
Proof.
  intros e doc path.
  assert ((1 < page_count doc)%nat) as Hlt by (simpl; lia).
  assert (forall i, (i < 1)%nat -> page_reads doc i) as Hpre
    by (intros i Hi; apply pdf_with_bad_page_reads; simpl; lia).
  assert (page_raises doc 1 e) as Hbad by (left; reflexivity).
  split; [reflexivity|]. split; [exact Hlt|]. split; [exact Hpre|].
  split; [exact Hbad|].
  exact (pdf_page_failure_discards_text demo_str (fitz_giving doc) path
           server_world doc 1%nat e eq_refl Hlt Hpre Hbad).
Defined.

Lemma pdf_close_failure_discards_text_witness :
  let e := ForeignError (py "document closed") in
  let pages := [py "Jane Doe"] in
  let doc := pdf_with_bad_close pages e in
  let path := py "uploadresume/cv.pdf" in
  fitz_open (fitz_giving doc) (files server_world) (cwd server_world) path
  = Return doc
  /\ pages_give doc pages
  /\ close doc = Raise e
  /\ extract_text_from_pdf demo_str (Some (fitz_giving doc)) path server_world
     = (Return (None, Some (MSG_PDF ++ demo_str e)),
        World (files server_world) (cwd server_world)
              (trace server_world
               ++ [Call_fitz_open path;
                   Call_print (MSG_PDF ++ demo_str e)])).
Proof.
  intros e pages doc path.
  split; [reflexivity|]. split; [apply pdf_with_bad_close_gives|].
  split; [reflexivity|].
  exact (pdf_close_failure_discards_text demo_str (fitz_giving doc) path
           server_world doc pages e eq_refl
           (pdf_with_bad_close_gives pages e) eq_refl).
Defined.

Lemma pdf_open_failure_reported_witness :
  let e := ForeignError (py "cannot open file") in
  let path := py "uploadresume/cv.pdf" in
  fitz_open fitz_rejecting (files server_world) (cwd server_world) path
  = Raise e
  /\ extract_text_from_pdf demo_str (Some fitz_rejecting) path server_world
     = (Return (None, Some (MSG_PDF ++ demo_str e)),
        World (files server_world) (cwd server_world)
              (trace server_world
               ++ [Call_fitz_open path;
                   Call_print (MSG_PDF ++ demo_str e)])).
Proof.
  intros e path. split; [reflexivity|].
  exact (pdf_open_failure_reported demo_str fitz_rejecting path server_world
           e eq_refl).
Defined.

Lemma docx_open_failure_reported_witness :
  let e := ForeignError (py "Package not found") in
  let path := py "uploadresume/cv.docx" in
  Document docx_rejecting (files server_world) (cwd server_world) path
  = Raise e
  /\ extract_text_from_docx demo_str docx_rejecting path server_world
     = (Return (None, Some (MSG_DOCX ++ demo_str e)),
        World (files server_world) (cwd server_world)
              (trace server_world
               ++ [Call_docx_Document path;
                   Call_print (MSG_DOCX ++ demo_str e)])).
Proof.
  intros e path. split; [reflexivity|].
  exact (docx_open_failure_reported demo_str docx_rejecting path server_world
           e eq_refl).
Defined.

Lemma docx_with_paragraph_answered_200_witness :
  let docx := docx_opening doc_blank_line in
  let w1 := saved cv_docx server_world in
  multidict_get (request_files (send cv_docx)) (py "file") = Some cv_docx
  /\ endswith (lower (filename cv_docx)) (py ".docx") = true
  /\ FileStorage_save cv_docx (temp_path cv_docx) server_world
     = (Return tt, w1)
  /\ Document docx (files w1) (cwd w1) (temp_path cv_docx)
     = Return doc_blank_line
  /\ paragraphs doc_blank_line ≠ []
  /\ exists w',
       parse_document demo_str None docx (send cv_docx) server_world
       = (Return ([(py "parsedText",
                    concat (map (fun p => text p ++ [LF])
                                (paragraphs doc_blank_line)))], 200), w').
Proof.
  intros docx w1.
  assert (endswith (lower (filename cv_docx)) (py ".docx") = true) as Hd
    by (vm_compute; reflexivity).
  assert (FileStorage_save cv_docx (temp_path cv_docx) server_world
          = (Return tt, w1)) as Hs
    by (vm_compute; reflexivity).
  assert (paragraphs doc_blank_line ≠ []) as Hne by discriminate.
  split; [reflexivity|]. split; [exact Hd|]. split; [exact Hs|].
  split; [reflexivity|]. split; [exact Hne|].
  exact (docx_with_paragraph_answered_200 demo_str None docx (send cv_docx)
           cv_docx server_world w1 doc_blank_line eq_refl Hd Hs eq_refl Hne).
Defined.

Lemma docx_without_paragraph_answered_500_witness :
  let docx := docx_opening empty_docx in
  let w1 := saved cv_docx server_world in
  multidict_get (request_files (send cv_docx)) (py "file") = Some cv_docx
  /\ endswith (lower (filename cv_docx)) (py ".docx") = true
  /\ FileStorage_save cv_docx (temp_path cv_docx) server_world
     = (Return tt, w1)
  /\ Document docx (files w1) (cwd w1) (temp_path cv_docx) = Return empty_docx
  /\ paragraphs empty_docx = []
  /\ exists w',
       parse_document demo_str None docx (send cv_docx) server_world
       = (Return ([(py "error", MSG_FAILED)], 500), w').
Proof.
  intros docx w1.
  assert (endswith (lower (filename cv_docx)) (py ".docx") = true) as Hd
    by (vm_compute; reflexivity).
  assert (FileStorage_save cv_docx (temp_path cv_docx) server_world
          = (Return tt, w1)) as Hs
    by (vm_compute; reflexivity).
  split; [reflexivity|]. split; [exact Hd|]. split; [exact Hs|].
  split; [reflexivity|]. split; [reflexivity|].
  exact (docx_without_paragraph_answered_500 demo_str None docx
           (send cv_docx) cv_docx server_world w1 empty_docx
           eq_refl Hd Hs eq_refl eq_refl).
Defined.

Lemma txt_undecodable_answered_500_witness :
  multidict_get (request_files (send latin1_txt)) (py "file")
  = Some latin1_txt
  /\ endswith (lower (filename latin1_txt)) (py ".txt") = true
  /\ FileStorage_save latin1_txt (temp_path latin1_txt) server_world
     = (Return tt, saved latin1_txt server_world)
  /\ utf8_decode (stream latin1_txt) = None
  /\ exists w',
       parse_document demo_str None docx_rejecting (send latin1_txt)
         server_world
       = (Return ([(py "error",
                    MSG_TXT
                    ++ demo_str (UnicodeDecodeError (stream latin1_txt)))],
                  500), w').
Proof.
  assert (endswith (lower (filename latin1_txt)) (py ".txt") = true) as Ht
    by (vm_compute; reflexivity).
  assert (FileStorage_save latin1_txt (temp_path latin1_txt) server_world
          = (Return tt, saved latin1_txt server_world)) as Hs
    by (vm_compute; reflexivity).
  assert (utf8_decode (stream latin1_txt) = None) as Hu
    by (vm_compute; reflexivity).
  split; [reflexivity|]. split; [exact Ht|]. split; [exact Hs|].
  split; [exact Hu|].
  exact (txt_undecodable_answered_500 demo_str None docx_rejecting
           (send latin1_txt) latin1_txt server_world
           (saved latin1_txt server_world) eq_refl Ht Hs Hu).
Defined.

Lemma txt_ascii_returned_verbatim_witness :
  multidict_get (request_files (send notes_txt)) (py "file") = Some notes_txt
  /\ endswith (lower (filename notes_txt)) (py ".txt") = true
  /\ FileStorage_save notes_txt (temp_path notes_txt) server_world
     = (Return tt, saved notes_txt server_world)
  /\ stream notes_txt ≠ []
  /\ Forall (fun b => Byte.to_N b < 128 /\ Byte.to_N b ≠ CR)
       (stream notes_txt)
  /\ exists w',
       parse_document demo_str None docx_rejecting (send notes_txt)
         server_world
       = (Return ([(py "parsedText", map Byte.to_N (stream notes_txt))],
                  200), w').
Proof.
  assert (endswith (lower (filename notes_txt)) (py ".txt") = true) as Ht
    by (vm_compute; reflexivity).
  assert (FileStorage_save notes_txt (temp_path notes_txt) server_world
          = (Return tt, saved notes_txt server_world)) as Hs
    by (vm_compute; reflexivity).
  assert (stream notes_txt ≠ []) as Hne by discriminate.
  assert (Forall (fun b => Byte.to_N b < 128 /\ Byte.to_N b ≠ CR)
            (stream notes_txt)) as Hall
    by (repeat constructor; discriminate).
  split; [reflexivity|]. split; [exact Ht|]. split; [exact Hs|].
  split; [exact Hne|]. split; [exact Hall|].
  exact (txt_ascii_returned_verbatim demo_str None docx_rejecting
           (send notes_txt) notes_txt server_world
           (saved notes_txt server_world) eq_refl Ht Hs Hne Hall).
Defined.

Lemma txt_response_has_no_carriage_return_witness :
  let parsed := py "a" ++ [LF] ++ py "b" in
  let w' := after demo_str None docx_rejecting (send windows_txt)
              server_world in
  multidict_get (request_files (send windows_txt)) (py "file")
  = Some windows_txt
  /\ endswith (lower (filename windows_txt)) (py ".txt") = true
  /\ FileStorage_save windows_txt (temp_path windows_txt) server_world
     = (Return tt, saved windows_txt server_world)
  /\ parse_document demo_str None docx_rejecting (send windows_txt)
       server_world
     = (Return ([(py "parsedText", parsed)], 200), w')
  /\ CR ∉ parsed.
Proof.
  intros parsed w'.
  assert (endswith (lower (filename windows_txt)) (py ".txt") = true) as Ht
    by (vm_compute; reflexivity).
  assert (FileStorage_save windows_txt (temp_path windows_txt) server_world
          = (Return tt, saved windows_txt server_world)) as Hs
    by (vm_compute; reflexivity).
  assert (parse_document demo_str None docx_rejecting (send windows_txt)
            server_world
          = (Return ([(py "parsedText", parsed)], 200), w')) as Hrun
    by (vm_compute; reflexivity).
  split; [reflexivity|]. split; [exact Ht|]. split; [exact Hs|].
  split; [exact Hrun|].
  exact (txt_response_has_no_carriage_return demo_str None docx_rejecting
           (send windows_txt) windows_txt server_world
           (saved windows_txt server_world) w' parsed eq_refl Ht Hs Hrun).
Defined.

Lemma answered_upload_restores_files_witness :
  let response := ([(py "parsedText", py "hello" ++ [LF] ++ py "world")],
                   200) in
  let w' := after demo_str None docx_rejecting (send notes_txt)
              server_world in
  multidict_get (request_files (send notes_txt)) (py "file") = Some notes_txt
  /\ filename notes_txt ≠ []
  /\ parse_document demo_str None docx_rejecting (send notes_txt)
       server_world = (Return response, w')
  /\ exists p,
       resolve server_world (temp_path notes_txt) = Some (Entry p) /\
       files w' = delete p (files server_world) /\
       cwd w' = cwd server_world /\
       (files server_world !! p = None -> files w' = files server_world).
Proof.
  intros response w'.
  assert (filename notes_txt ≠ []) as Hn by discriminate.
  assert (parse_document demo_str None docx_rejecting (send notes_txt)
            server_world = (Return response, w')) as Hrun
    by (vm_compute; reflexivity).
  split; [reflexivity|]. split; [exact Hn|]. split; [exact Hrun|].
  exact (answered_upload_restores_files demo_str None docx_rejecting
           (send notes_txt) notes_txt server_world w' response
           eq_refl Hn Hrun).
Defined.


Lemma response_shape_witness :
  let body := [(py "parsedText", py "hello" ++ [LF] ++ py "world")] in
  let w' := after demo_str None docx_rejecting (send notes_txt)
              server_world in
  parse_document demo_str None docx_rejecting (send notes_txt) server_world
  = (Return (body, 200), w')
  /\ ((200 = 200 /\ exists c t, body = [(py "parsedText", c :: t)]) \/
      (200 = 400 /\
       exists m, body = [(py "error", m)] /\
                 (m = MSG_NO_PART \/ m = MSG_NO_SELECTED
                  \/ m = MSG_UNSUPPORTED))
      \/
      (200 = 500 /\ exists c m, body = [(py "error", c :: m)])).
Proof.
  intros body w'.
  assert (parse_document demo_str None docx_rejecting (send notes_txt)
            server_world = (Return (body, 200), w')) as Hrun
    by (vm_compute; reflexivity).
  split; [exact Hrun|].
  exact (response_shape demo_str None docx_rejecting (send notes_txt)
           server_world w' body 200 Hrun).
Defined.

Lemma one_save_one_remove_witness :
  let response := ([(py "error", MSG_DOCX ++ py "Package not found")],
                   500) in
  let w' := after demo_str None docx_rejecting (send cv_docx)
              server_world in
  multidict_get (request_files (send cv_docx)) (py "file") = Some cv_docx
  /\ filename cv_docx ≠ []
  /\ parse_document demo_str None docx_rejecting (send cv_docx) server_world
     = (Return response, w')
  /\ exists t,
       trace w' = trace server_world ++ [Call_save (temp_path cv_docx)] ++ t
                    ++ [Call_remove (temp_path cv_docx)] /\
       forallb is_read_call t = true.
Proof.
  intros response w'.
  assert (filename cv_docx ≠ []) as Hn by discriminate.
  assert (parse_document demo_str None docx_rejecting (send cv_docx)
            server_world = (Return response, w')) as Hrun
    by (vm_compute; reflexivity).
  split; [reflexivity|]. split; [exact Hn|]. split; [exact Hrun|].
  exact (one_save_one_remove demo_str None docx_rejecting (send cv_docx)
           cv_docx server_world w' response eq_refl Hn Hrun).
Defined.

Lemma simple_filename_stays_in_upload_dir_witness :
  let entry := upload_dir server_world ++ [filename notes_txt] in
  multidict_get (request_files (send notes_txt)) (py "file") = Some notes_txt
  /\ simple_name (filename notes_txt) = true
  /\ is_dir (files server_world) (upload_dir server_world) = true
  /\ resolve server_world (temp_path notes_txt) = Some (Entry entry)
  /\ (forall w1,
        FileStorage_save notes_txt (temp_path notes_txt) server_world
        = (Return tt, w1) ->
        files w1 = <[entry := File (stream notes_txt)]> (files server_world))
  /\ (forall response w',
        parse_document demo_str None docx_rejecting (send notes_txt)
          server_world = (Return response, w') ->
        files w' = delete entry (files server_world)).
Proof.
  intros entry.
  assert (simple_name (filename notes_txt) = true) as Hsimple
    by (vm_compute; reflexivity).
  assert (is_dir (files server_world) (upload_dir server_world) = true)
    as Hdir by (vm_compute; reflexivity).
  split; [reflexivity|]. split; [exact Hsimple|]. split; [exact Hdir|].
  exact (simple_filename_stays_in_upload_dir demo_str None docx_rejecting
           (send notes_txt) notes_txt server_world eq_refl Hsimple Hdir).
Defined.

Lemma first_file_part_decides_witness :
  multidict_get (request_files (send_two notes_txt cv_docx)) (py "file")
  = Some notes_txt
  /\ parse_document demo_str None docx_rejecting (send_two notes_txt cv_docx)
       server_world
     = parse_document demo_str None docx_rejecting (send notes_txt)
         server_world.
Proof.
  assert (multidict_get (request_files (send_two notes_txt cv_docx))
            (py "file") = Some notes_txt) as Hf
    by (vm_compute; reflexivity).
  split; [exact Hf|].
  exact (first_file_part_decides demo_str None docx_rejecting
           (send_two notes_txt cv_docx) notes_txt server_world Hf).
Defined.

Lemma pdf_unavailable_calls_witness :
  multidict_get (request_files (send cv_pdf)) (py "file") = Some cv_pdf
  /\ endswith (lower (filename cv_pdf)) (py ".pdf") = true
  /\ FileStorage_save cv_pdf (temp_path cv_pdf) server_world
     = (Return tt, saved cv_pdf server_world)
  /\ exists p,
       resolve server_world (temp_path cv_pdf) = Some (Entry p) /\
       parse_document demo_str None docx_rejecting (send cv_pdf) server_world
       = (Return ([(py "error", MSG_NO_FITZ)], 500),
          World (delete p (files server_world)) (cwd server_world)
                (trace server_world
                 ++ [Call_save (temp_path cv_pdf);
                     Call_remove (temp_path cv_pdf)])).
Proof.
  assert (endswith (lower (filename cv_pdf)) (py ".pdf") = true) as Hp
    by (vm_compute; reflexivity).
  assert (FileStorage_save cv_pdf (temp_path cv_pdf) server_world
          = (Return tt, saved cv_pdf server_world)) as Hs
    by (vm_compute; reflexivity).
  split; [reflexivity|]. split; [exact Hp|]. split; [exact Hs|].
  exact (pdf_unavailable_calls demo_str None docx_rejecting (send cv_pdf)
           cv_pdf server_world (saved cv_pdf server_world)
           eq_refl eq_refl Hp Hs).
Defined.

Lemma empty_extraction_answered_500_witness :
  let fitz := Some (fitz_opening [[]]) in
  multidict_get (request_files (send cv_pdf)) (py "file") = Some cv_pdf
  /\ FileStorage_save cv_pdf (temp_path cv_pdf) server_world
     = (Return tt, saved cv_pdf server_world)
  /\ extracted_by_rule fitz docx_rejecting cv_pdf (saved cv_pdf server_world)
       []
  /\ exists w',
       parse_document demo_str fitz docx_rejecting (send cv_pdf) server_world
       = (Return ([(py "error", MSG_FAILED)], 500), w').
Proof.
  intros fitz.
  assert (FileStorage_save cv_pdf (temp_path cv_pdf) server_world
          = (Return tt, saved cv_pdf server_world)) as Hs
    by (vm_compute; reflexivity).
  assert (extracted_by_rule fitz docx_rejecting cv_pdf
            (saved cv_pdf server_world) []) as Hrule.
  { apply (rule_pdf fitz docx_rejecting cv_pdf _ (fitz_opening [[]])
             (pdf_of_pages [[]]) [[]]);
      [reflexivity | vm_compute; reflexivity | reflexivity
      | apply pdf_of_pages_gives | reflexivity]. }
  split; [reflexivity|]. split; [exact Hs|]. split; [exact Hrule|].
  exact (empty_extraction_answered_500 demo_str fitz docx_rejecting
           (send cv_pdf) cv_pdf server_world (saved cv_pdf server_world)
           eq_refl Hs Hrule).
Defined.

Lemma startup_ensures_upload_dir_witness :
  startup blank_world = (Return tt, server_world)
  /\ is_dir (files server_world) (upload_dir server_world) = true
  /\ cwd server_world = cwd blank_world
  /\ trace server_world = trace blank_world
  /\ (forall q, q ≠ upload_dir blank_world ->
        files server_world !! q = files blank_world !! q)
  /\ startup server_world = (Return tt, server_world).
Proof.
  assert (startup blank_world = (Return tt, server_world)) as Hrun
    by (vm_compute; reflexivity).
  split; [exact Hrun|].
  exact (startup_ensures_upload_dir blank_world server_world Hrun).
Defined.

Lemma startup_fails_on_regular_file_witness :
  files blocked_world !! upload_dir blocked_world = Some (File [])
  /\ startup blocked_world = (Raise (OSError UPLOAD_FOLDER), blocked_world).
Proof.
  assert (files blocked_world !! upload_dir blocked_world = Some (File []))
    as Hfile by (vm_compute; reflexivity).
  split; [exact Hfile|].
  exact (startup_fails_on_regular_file blocked_world [] Hfile).
Defined.
